(** * A model of the video transcription service (src/app.py)

    The service is a Flask application with three parts:
    - [extract_info]: regular-expression extraction of a name and a location
      from a transcript;
    - the [/transcribe] pipeline: staging of the upload, [extract_audio],
      [transcribe_audio], [extract_info], and the clean-up of temporary files;
    - the [/download_excel] export endpoint.

    Python values are embedded as the inductive type [value]; a Python [str]
    is a list of Unicode code points.  Functions that can raise return in
    [res]; functions that touch the file system run in the state-and-exception
    monad [M] over [world].  The external collaborators (ffmpeg, moviepy,
    whisper, tempfile, the spreadsheet writer, Flask's JSON decoding) are the
    fields of the record [env]. *)

From Stdlib Require Import ZArith NArith Ascii String List Bool Lia.
From stdpp Require Import base option list strings gmap pretty.

#[local] Set Warnings "-register-all".

Open Scope string_scope.
Open Scope N_scope.

(** ** Python strings and values *)

(** A Python [str]: a sequence of Unicode code points. *)
Abbreviation text := (list N).

(** A string literal of the source, as a Python [str]. *)
Definition str (s : string) : text :=
  map N_of_ascii (list_ascii_of_string s).

(** JSON-like Python values: [None], booleans, integers, strings, lists and
    dictionaries with string keys. *)
Inductive value : Type :=
| VNone
| VBool (b : bool)
| VInt (z : Z)
| VStr (t : text)
| VList (l : list value)
| VDict (d : gmap string value).

(** Python truthiness, as used by [if x:] and [if not x:]. *)
Definition truthy (v : value) : bool :=
  match v with
  | VNone => false
  | VBool b => b
  | VInt z => negb (z =? 0)%Z
  | VStr t => match t with [] => false | _ => true end
  | VList l => match l with [] => false | _ => true end
  | VDict d => negb (bool_decide (d = ∅))
  end.

(** ** Exceptions *)

(** The exception classes that the source names in an [except] clause or that
    its library calls raise.  All of them derive from [Exception]. *)
Inductive exn_class : Type :=
| CalledProcessError
| FileNotFoundError
| PermissionError
| TypeError
| AttributeError
| BadRequest
| Exception.

(** The outcome of a Python call: a returned value, or a raised exception of
    class [c] whose [str(e)] is [msg]. *)
Inductive res (A : Type) : Type :=
| Ret (a : A)
| Raise (c : exn_class) (msg : text).
Arguments Ret {A} a.
Arguments Raise {A} c msg.

#[global] Instance res_ret : MRet res := fun A a => Ret a.
#[global] Instance res_bind : MBind res := fun A B f m =>
  match m with
  | Ret a => f a
  | Raise c msg => Raise c msg
  end.

(** ** Regular expressions of [extract_info]

    Every pattern of the source is a literal trigger phrase followed by the
    group [([A-Za-z\s]+)], searched with [re.IGNORECASE]. *)

Definition is_ascii_letter (c : N) : bool :=
  ((65 <=? c) && (c <=? 90)) || ((97 <=? c) && (c <=? 122)).

(** [str.isspace] on one code point: the characters matched by [\s] in a
    [str] pattern and removed by [str.strip()]. *)
Definition is_space (c : N) : bool :=
  ((9 <=? c) && (c <=? 13)) || ((28 <=? c) && (c <=? 32))
  || (c =? 133) || (c =? 160) || (c =? 5760)
  || ((8192 <=? c) && (c <=? 8202))
  || (c =? 8232) || (c =? 8233) || (c =? 8239) || (c =? 8287) || (c =? 12288).

(** The set [[A-Za-z\s]] under [re.IGNORECASE]: the 52 ASCII letters, the
    four non-ASCII letters that case-fold to [i], [s] and [k] (U+0130, U+0131,
    U+017F, U+212A), and white space. *)
Definition in_class (c : N) : bool :=
  is_ascii_letter c
  || (c =? 304) || (c =? 305) || (c =? 383) || (c =? 8490)
  || is_space c.

Definition ascii_lower (c : N) : N :=
  if (65 <=? c) && (c <=? 90) then c + 32 else c.

(** A literal ASCII character [p] of a pattern against the text character [c]
    under [re.IGNORECASE]. *)
Definition literal_ic (p c : N) : bool :=
  (ascii_lower c =? ascii_lower p)
  || ((ascii_lower p =? 105) && ((c =? 304) || (c =? 305)))
  || ((ascii_lower p =? 115) && (c =? 383))
  || ((ascii_lower p =? 107) && (c =? 8490)).

(** The trigger phrase matched at the start of [t]: the rest of the text. *)
Fixpoint match_literal (p : text) (t : text) : option text :=
  match p, t with
  | [], _ => Some t
  | a :: p', c :: t' => if literal_ic a c then match_literal p' t' else None
  | _ :: _, [] => None
  end.

(** The greedy run [[A-Za-z\s]*] at the start of [t]. *)
Fixpoint take_class (t : text) : text :=
  match t with
  | c :: t' => if in_class c then c :: take_class t' else []
  | [] => []
  end.

(** The pattern [trigger([A-Za-z\s]+)] matched at the start of [t]: group 1.
    Nothing follows the group in the pattern, so the greedy run never
    backtracks. *)
Definition match_here (trigger : string) (t : text) : option text :=
  match match_literal (str trigger) t with
  | Some rest =>
      match take_class rest with
      | [] => None
      | g => Some g
      end
  | None => None
  end.

(** [re.search] on a [str]: the leftmost position where the pattern matches;
    the result is [match.group(1)]. *)
Fixpoint search (trigger : string) (t : text) : option text :=
  match match_here trigger t with
  | Some g => Some g
  | None =>
      match t with
      | [] => None
      | _ :: t' => search trigger t'
      end
  end.

(** [re.search(pattern, text, re.IGNORECASE)]: anything but a string is
    rejected with [TypeError]. *)
Definition re_search (trigger : string) (v : value) : res (option text) :=
  match v with
  | VStr t => Ret (search trigger t)
  | _ => Raise TypeError (str "expected string or bytes-like object")
  end.

Fixpoint lstrip (t : text) : text :=
  match t with
  | c :: t' => if is_space c then lstrip t' else t
  | [] => []
  end.

Definition rstrip (t : text) : text := rev (lstrip (rev t)).

(** [str.strip()]. *)
Definition strip (t : text) : text := rstrip (lstrip t).

(** ** extract_info *)

(** The trigger phrases of [name_patterns], in the order of the source. *)
Definition name_patterns : list string :=
  ["my name is "; "myself "; "i am "; "this is me "; "i'm "].

(** The trigger phrases of [location_patterns], in the order of the source. *)
Definition location_patterns : list string :=
  ["i'm from "; "i live in "; "i am from "; "then i moved to "].

(** The loop [for pattern in patterns: ... break]: the stripped group of the
    first pattern that matches, [None] when the loop runs to its end. *)
Fixpoint first_match (patterns : list string) (v : value) : res (option text) :=
  match patterns with
  | [] => Ret None
  | pattern :: rest =>
      m ← re_search pattern v;
      match m with
      | Some g => Ret (Some (strip g))
      | None => first_match rest v
      end
  end.

Definition extract_info (v : value) : res (gmap string value) :=
  let data : gmap string value := {[ "name" := VNone; "location" := VNone ]} in
  n ← first_match name_patterns v;
  let data := match n with Some s => <[ "name" := VStr s ]> data | None => data end in
  l ← first_match location_patterns v;
  let data := match l with Some s => <[ "location" := VStr s ]> data | None => data end in
  Ret data.

(** ** The interpreter state and the monad of effects *)

(** File contents are byte strings. *)
Abbreviation blob := (list N).

(** The state a request handler runs in:
    - [fs]: the files on disk, by path;
    - [temps]: the paths handed out by [tempfile.NamedTemporaryFile], oldest
      first (a history, never read by the program);
    - [audio_path_var]: the binding of the local variable [audio_path] in the
      running frame, which [transcribe] inspects through [locals()]:
      [None] when unbound, [Some None] when bound to Python's [None]. *)
Record world : Type := World {
  fs : gmap string blob;
  temps : list string;
  audio_path_var : option (option string)
}.

Definition set_fs (f : gmap string blob → gmap string blob) (w : world) : world :=
  World (f (fs w)) (temps w) (audio_path_var w).

Definition set_audio_path_var (b : option (option string)) (w : world) : world :=
  World (fs w) (temps w) b.

(** State passing with exceptions: the state survives a raise. *)
Definition M (A : Type) : Type := world → res A * world.

#[global] Instance M_ret : MRet M := fun A a w => (Ret a, w).
#[global] Instance M_bind : MBind M := fun A B f m w =>
  match m w with
  | (Ret a, w') => f a w'
  | (Raise c msg, w') => (Raise c msg, w')
  end.

Definition raise {A : Type} (c : exn_class) (msg : text) : M A :=
  fun w => (Raise c msg, w).

Definition lift {A : Type} (r : res A) : M A := fun w => (r, w).

Definition get_world : M world := fun w => (Ret w, w).

Definition modify (f : world → world) : M unit := fun w => (Ret tt, f w).

(** [if c: m]. *)
Definition when (c : bool) (m : M unit) : M unit := if c then m else mret tt.

(** [try: body / except Exception as e: handler(str(e))].  Every class of
    [exn_class] derives from [Exception]. *)
Definition try_except {A : Type} (body : M A) (handler : text → M A) : M A :=
  fun w =>
    match body w with
    | (Ret a, w') => (Ret a, w')
    | (Raise _ msg, w') => handler msg w'
    end.

(** [try: body / finally: fin].  The clause [fin] runs on every exit of
    [body]; an exception raised by [fin] replaces the pending return value or
    exception of [body]. *)
Definition try_finally {A : Type} (body : M A) (fin : M unit) : M A :=
  fun w =>
    let '(r, w1) := body w in
    match fin w1 with
    | (Ret _, w2) => (r, w2)
    | (Raise c msg, w2) => (Raise c msg, w2)
    end.

(** A function call: the callee runs in a frame of its own, and the caller's
    frame is back when it returns or raises. *)
Definition call {A : Type} (callee : M A) : M A :=
  fun w =>
    let '(r, w') := callee (set_audio_path_var None w) in
    (r, set_audio_path_var (audio_path_var w) w').

(** ** External collaborators *)

(** What moviepy exposes of an opened container: its audio track, if any. *)
Record clip : Type := Clip { audio : option blob }.

(** One row per dictionary, one (column, value) pair per key, in key order. *)
Abbreviation dataframe := (list (list (string * value))).

Record env : Type := Env {
  (** outcome of [subprocess.run(["ffmpeg", "-version"], check=True, ...)] *)
  ffmpeg_version : res unit;
  (** the name [NamedTemporaryFile] picks, from the existing names and the
      suffix *)
  mkstemp : gset string → string → string;
  (** moviepy's [VideoFileClip(path)], from the bytes of the file ([None]
      when there is no such file) *)
  VideoFileClip : option blob → res clip;
  (** [clip.audio.write_audiofile(path, codec="pcm_s16le", fps=16000)]: the
      bytes written *)
  write_audiofile : blob → res blob;
  (** the global [whisper_model]: [None] until [load_model] has run; the
      model maps the bytes of the audio file ([None] when the path is no
      readable file) to [result["text"]] *)
  whisper_model : option (option blob → res text);
  (** pandas' [DataFrame.to_excel]: the bytes of the workbook *)
  to_excel : dataframe → res blob;
  (** Werkzeug 2.1 and later: [get_json] raises when the mimetype is not
      JSON, where earlier versions return [None] *)
  strict_json : bool;
  (** what a [write_audiofile] that raises has written to its file by then *)
  write_audiofile_left : blob → blob;
  (** what a [to_excel] that raises leaves under its path: [None] when it
      fails before it opens the file *)
  to_excel_left : dataframe → option blob
}.

(** ** File-system primitives *)

(** The message of the [TypeError] of [os.stat(None)]. *)
Definition stat_none : text :=
  str "stat: path should be string, bytes, os.PathLike or integer, not NoneType".

(** [with tempfile.NamedTemporaryFile(delete=False, suffix=...) as f]: an
    empty file under a new name, kept after the block. *)
Definition NamedTemporaryFile (E : env) (suffix : string) : M string :=
  fun w =>
    let name := mkstemp E (dom (fs w)) suffix in
    (Ret name, World (<[ name := [] ]> (fs w)) (temps w ++ [name]) (audio_path_var w)).

Definition write_file (p : string) (b : blob) : M unit :=
  modify (set_fs (insert p b)).

(** [os.path.exists]: [os.stat] rejects [None] with a [TypeError], which
    [os.path.exists] does not catch. *)
Definition os_path_exists (p : option string) : M bool :=
  match p with
  | None => raise TypeError stat_none
  | Some p => fun w => (Ret (bool_decide (p ∈ dom (fs w))), w)
  end.

(** [os.remove]. *)
Definition os_remove (p : option string) : M unit :=
  match p with
  | None =>
      raise TypeError
        (str "remove: path should be string, bytes or os.PathLike, not NoneType")
  | Some p => fun w =>
      if bool_decide (p ∈ dom (fs w))
      then (Ret tt, set_fs (delete p) w)
      else (Raise FileNotFoundError (str "[Errno 2] No such file or directory"), w)
  end.

(** ** Requests and responses *)

(** The body of a request as [get_json] sees it: no bytes at all, bytes that
    are not a JSON document, or a JSON document. *)
Inductive payload : Type :=
| NoBody
| Malformed
| Document (v : value).

Record request : Type := Request {
  (** [request.files]: the uploaded files of a multipart form, by field *)
  files : gmap string blob;
  (** [request.is_json]: the mimetype indicates JSON *)
  is_json : bool;
  body : payload
}.

Inductive content : Type :=
| Json (v : value)                          (* [jsonify(v)] *)
| Plain (t : text)
| Attachment (name : string) (b : blob)     (* [send_file(name, as_attachment=True)] *)
| ErrorPage.                                (* Flask's own HTML error page *)

Record response : Type := Response { status : Z; payload_of : content }.

(** [jsonify({"error": msg}), code]. *)
Definition error_response (code : Z) (msg : text) : response :=
  Response code (Json (VDict {[ "error" := VStr msg ]})).

(** What Flask sends for a view: the view's response, or its own error page
    when the view raises (the page of the HTTP error for an [HTTPException],
    500 otherwise). *)
Definition serve (view : M response) (w : world) : response * world :=
  match view w with
  | (Ret r, w') => (r, w')
  | (Raise BadRequest _, w') => (Response 400 ErrorPage, w')
  | (Raise _ _, w') => (Response 500 ErrorPage, w')
  end.

(** ** check_ffmpeg, extract_audio, transcribe_audio *)

Definition check_ffmpeg (E : env) : M bool :=
  call (fun w =>
    match ffmpeg_version E with
    | Ret _ => (Ret true, w)
    | Raise CalledProcessError _ => (Ret false, w)
    | Raise FileNotFoundError _ => (Ret false, w)
    | Raise c msg => (Raise c msg, w)
    end).

(** [VideoFileClip(video_path)]. *)
Definition open_clip (E : env) (video_path : string) : M clip :=
  fun w => (VideoFileClip E (fs w !! video_path), w).

(** [clip.audio.write_audiofile(audio_path, ...)]: moviepy writes the file
    at [audio_path] as it goes; when it raises, the file holds what was
    written by then. *)
Definition write_audio (E : env) (track : blob) (audio_path : string) : M unit :=
  match write_audiofile E track with
  | Ret wav => write_file audio_path wav
  | Raise c msg =>
      write_file audio_path (write_audiofile_left E track);;
      raise c msg
  end.

(** The pair [(audio_path, error)] returned by [extract_audio]. *)
Definition extract_audio (E : env) (video_path : string) : M (option string * option text) :=
  call (
    ok ← check_ffmpeg E;
    if negb ok
    then mret (None, Some (str "ffmpeg is not installed or not working properly"))
    else
      try_except
        (audio_path ← NamedTemporaryFile E ".wav";
         clip ← open_clip E video_path;
         match audio clip with
         | None => mret (None, Some (str "No audio stream found in video"))
         | Some track =>
             write_audio E track audio_path;;
             mret (Some audio_path, None)
         end)
        (fun msg => mret (None, Some msg))).

(** [whisper_model.transcribe(audio_path)["text"]]. *)
Definition whisper_transcribe (model : option blob → res text)
    (audio_path : option string) : M text :=
  fun w => (model (audio_path ≫= (fs w !!.)), w).

(** The pair [(text, error)] returned by [transcribe_audio]. *)
Definition transcribe_audio (E : env) (audio_path : option string) : M (option text * option text) :=
  call (
    try_except
      (match whisper_model E with
       | None => raise Exception (str "Whisper model not loaded")
       | Some model =>
           result ← whisper_transcribe model audio_path;
           mret (Some result, None)
       end)
      (fun msg => mret (None, Some msg))).

(** ** The /transcribe endpoint *)

(** Truthiness of a value that is [None] or a [str]. *)
Definition truthy_str (o : option text) : bool :=
  match o with
  | Some (_ :: _) => true
  | _ => false
  end.

(** A value that is [None] or a [str], as a [value]. *)
Definition of_opt (o : option text) : value :=
  match o with
  | Some t => VStr t
  | None => VNone
  end.

(** The [finally] clause of [transcribe]. *)
Definition cleanup (video_path : string) : M unit :=
  b ← os_path_exists (Some video_path);
  when b (os_remove (Some video_path));;
  w ← get_world;
  match audio_path_var w with
  | None => mret tt                       (* ['audio_path' in locals()] is false *)
  | Some audio_path =>
      b ← os_path_exists audio_path;
      when b (os_remove audio_path)
  end.

(** The body of the [try] statement of [transcribe]. *)
Definition pipeline (E : env) (video_path : string) : M response :=
  '(audio_path, audio_error) ← extract_audio E video_path;
  modify (set_audio_path_var (Some audio_path));;
  when (truthy_str audio_error) (raise Exception (default [] audio_error));;
  '(transcription, transcribe_error) ← transcribe_audio E audio_path;
  when (truthy_str transcribe_error) (raise Exception (default [] transcribe_error));;
  extracted_data ← lift (extract_info (of_opt transcription));
  mret (Response 200 (Json (VDict
    {[ "transcription" := of_opt transcription;
       "extracted_info" := VDict extracted_data ]}))).

Definition transcribe (E : env) (req : request) : M response :=
  call (
    match files req !! "video" with
    | None => mret (error_response 400 (str "No video file provided"))
    | Some file =>
        video_path ← NamedTemporaryFile E ".mp4";
        write_file video_path file;;
        try_finally
          (try_except
             (pipeline E video_path)
             (fun msg => mret (error_response 500 msg)))
          (cleanup video_path)
    end).

(** ** The /download_excel endpoint *)

(** [request.get_json()]. *)
Definition get_json (E : env) (req : request) : res value :=
  if is_json req then
    match body req with
    | Document v => Ret v
    | _ =>
        Raise BadRequest
          (str "400 Bad Request: The browser (or proxy) sent a request that this server could not understand.")
    end
  else if strict_json E then
    Raise BadRequest
      (str "400 Bad Request: Did not attempt to load JSON data because the request Content-Type was not 'application/json'.")
  else Ret VNone.

Definition type_name (v : value) : string :=
  match v with
  | VNone => "NoneType"
  | VBool _ => "bool"
  | VInt _ => "int"
  | VStr _ => "str"
  | VList _ => "list"
  | VDict _ => "dict"
  end.

(** [v.get(key, fallback)]: only a dictionary has the method. *)
Definition get (v : value) (key : string) (fallback : value) : res value :=
  match v with
  | VDict d => Ret (default fallback (d !! key))
  | _ => Raise AttributeError (str ("'" ++ type_name v ++ "' object has no attribute 'get'"))
  end.

Definition excel_path : string := "transcription_data.xlsx".

(** [df.to_excel(excel_path, index=False)]: pandas writes the file at the
    path itself; when it raises after it has opened the file, the file holds
    what was written by then. *)
Definition df_to_excel (E : env) (df : dataframe) (p : string) : M unit :=
  match to_excel E df with
  | Ret workbook => write_file p workbook
  | Raise c msg =>
      match to_excel_left E df with
      | Some partial => write_file p partial
      | None => mret tt
      end;;
      raise c msg
  end.

(** [send_file(path, as_attachment=True)]: the file is read under the name
    pandas wrote it; the service runs in its own directory, so that the
    relative path means the same file to Flask and to pandas. *)
Definition send_file (p : string) : M response :=
  fun w =>
    match fs w !! p with
    | Some b => (Ret (Response 200 (Attachment p b)), w)
    | None => (Raise FileNotFoundError (str "[Errno 2] No such file or directory"), w)
    end.

(** The one-row frame of [download_excel]. *)
Definition export_frame (data : value) : res dataframe :=
  info ← get data "extracted_info" (VDict ∅);
  location ← get info "location" (VStr (str "N/A"));
  info ← get data "extracted_info" (VDict ∅);
  name ← get info "name" (VStr (str "N/A"));
  transcription ← get data "transcription" (VStr []);
  mret [[("Location", location); ("Name", name); ("Transcription", transcription)]].

Definition download_excel (E : env) (req : request) : M response :=
  call (
    try_except
      (data ← lift (get_json E req);
       if negb (truthy data)
       then mret (error_response 400 (str "No JSON data provided"))
       else
         df ← lift (export_frame data);
         df_to_excel E df excel_path;;
         send_file excel_path)
      (fun msg => mret (error_response 500 msg))).

(** ** Observations used in the statements *)

(** The value under [key] of a returned dictionary. *)
Definition field (key : string) (r : res (gmap string value)) : option value :=
  match r with
  | Ret d => d !! key
  | Raise _ _ => None
  end.



(** The state of [transcribe] when its [try] statement starts: the upload
    [file] is stored under the name picked for the video. *)
Definition staged (E : env) (file : blob) (w : world) : world :=
  let video_path := mkstemp E (dom (fs w)) ".mp4" in
  World (<[ video_path := file ]> (<[ video_path := [] ]> (fs w)))
        (temps w ++ [video_path]) None.

(** A result pair with exactly one [None] component. *)
Definition one_null {A B : Type} (p : option A * option B) : Prop :=
  (is_Some p.1 ∧ p.2 = None) ∨ (p.1 = None ∧ is_Some p.2).

(** The outcomes of the ffmpeg probe that [check_ffmpeg] turns into a
    boolean: success, [CalledProcessError] and [FileNotFoundError]. *)
Definition probe_handled (r : res unit) : Prop :=
  match r with
  | Ret _ => True
  | Raise CalledProcessError _ => True
  | Raise FileNotFoundError _ => True
  | Raise _ _ => False
  end.

(** The value of [data["extracted_info"][key]] in a request body, when both
    keys are there. *)
Definition info_field (d : gmap string value) (key : string) : option value :=
  match d !! "extracted_info" with
  | Some (VDict info) => info !! key
  | _ => None
  end.

(** ** Sample environments and requests *)

Definition tmpname (used : gset string) (suffix : string) : string :=
  "/tmp/tmp" ++ pretty (size used) ++ suffix.

(** A working installation: ffmpeg answers, the model is loaded, a container
    whose first byte is 0 has no audio stream. *)
Definition sample_env : env := {|
  ffmpeg_version := Ret tt;
  mkstemp := tmpname;
  VideoFileClip := fun b =>
    match b with
    | Some (0 :: _) => Ret (Clip None)
    | Some b => Ret (Clip (Some b))
    | None => Raise FileNotFoundError (str "MoviePy error: the file could not be found!")
    end;
  write_audiofile := fun track => Ret track;
  whisper_model := Some (fun b =>
    match b with
    | Some _ => Ret (str "Hi, my name is John Smith. I live in Paris now!")
    | None => Raise TypeError (str "expected str, bytes or os.PathLike object, not NoneType")
    end);
  to_excel := fun df => Ret [80; 75; 3; 4];
  strict_json := false;
  write_audiofile_left := fun track => [];
  to_excel_left := fun df => None
|}.

(** The same installation with an ffmpeg on the PATH that may not be
    executed. *)
Definition locked_ffmpeg_env : env := {|
  ffmpeg_version := Raise PermissionError (str "[Errno 13] Permission denied: 'ffmpeg'");
  mkstemp := mkstemp sample_env;
  VideoFileClip := VideoFileClip sample_env;
  write_audiofile := write_audiofile sample_env;
  whisper_model := whisper_model sample_env;
  to_excel := to_excel sample_env;
  strict_json := strict_json sample_env;
  write_audiofile_left := write_audiofile_left sample_env;
  to_excel_left := to_excel_left sample_env
|}.

Definition empty_world : world := World ∅ [] None.

(** An upload without an audio stream, one with, and a form without the
    [video] field. *)
Definition silent_upload : request := Request {[ "video" := [0; 1; 2] ]} false NoBody.
Definition spoken_upload : request := Request {[ "video" := [1; 1; 2] ]} false NoBody.
Definition no_upload : request := Request {[ "audio" := [1; 1; 2] ]} false NoBody.

(** A POST with [Content-Type: application/json] and no body. *)
Definition empty_json_post : request := Request ∅ true NoBody.

(** An export body without the [transcription] field. *)
Definition partial_body : gmap string value :=
  {[ "extracted_info" := VDict {[ "name" := VStr (str "Ann"); "location" := VStr (str "Oslo") ]} ]}.

(** An export body with an explicit null name and nothing else. *)
Definition null_name_body : gmap string value :=
  {[ "extracted_info" := VDict {[ "name" := VNone ]} ]}.

(** An export body shaped like a complete transcribe response. *)
Definition full_body : gmap string value :=
  {[ "transcription" := VStr (str "my name is Ann");
     "extracted_info" := VDict {[ "name" := VStr (str "Ann"); "location" := VNone ]} ]}.

(** ** The liveness endpoints and the loading of the model *)

(** The view of [/]. *)
Definition home : M response :=
  call (mret (Response 200 (Plain (str "Whisper Transcription API is running")))).

(** The view of [/health]: [whisper_ready] is [whisper_model is not None]. *)
Definition health_check (E : env) : M response :=
  call (mret (Response 200 (Json (VDict
    {[ "status" := VStr (str "healthy");
       "whisper_ready" := VBool (bool_decide (is_Some (whisper_model E))) ]})))).

(** [load_model], run by Flask before the first request: [cuda] is
    [torch.cuda.is_available()], [whisper_load name device] is
    [whisper.load_model(name, device=device)]; the result is the environment
    with the global [whisper_model] assigned.  An exception of the loader
    leaves the function before the assignment. *)
Definition load_model (cuda : bool)
    (whisper_load : string → string → res (option blob → res text))
    (E : env) : res env :=
  let device := if cuda then "cuda" else "cpu" in
  model ← whisper_load "medium" device;
  Ret (Env (ffmpeg_version E) (mkstemp E) (VideoFileClip E) (write_audiofile E)
           (Some model) (to_excel E) (strict_json E)
           (write_audiofile_left E) (to_excel_left E)).

(** ** Further observations *)

(** An ASCII letter turned to upper case; any other character unchanged. *)
Definition ascii_upper (c : N) : N :=
  if (97 <=? c) && (c <=? 122) then c - 32 else c.

(** A value with its string, if it is one, turned to ASCII upper case. *)
Definition upper_value (v : value) : value :=
  match v with
  | VStr s => VStr (map ascii_upper s)
  | _ => v
  end.

(** No white space at either end. *)
Definition trimmed (s : text) : bool :=
  match head s with Some c => negb (is_space c) | None => true end
  && match last s with Some c => negb (is_space c) | None => true end.

(** The two fields of [extract_info] with their pattern lists. *)
Definition field_patterns : list (string * list string) :=
  [("name", name_patterns); ("location", location_patterns)].

(** The names [NamedTemporaryFile] picks during a [/transcribe] request, for
    the video and then for the audio. *)
Definition video_tmp (E : env) (w : world) : string :=
  mkstemp E (dom (fs w)) ".mp4".

Definition audio_tmp (E : env) (file : blob) (w : world) : string :=
  mkstemp E (dom (fs (staged E file w))) ".wav".

(** Both names are new when they are picked, as [mkstemp] guarantees. *)
Definition fresh_names (E : env) (file : blob) (w : world) : Prop :=
  (video_tmp E w ∉ dom (fs w)) ∧ (audio_tmp E file w ∉ dom (fs (staged E file w))).

(** The probe of ffmpeg fails in one of the two ways [check_ffmpeg] reports
    as [False]. *)
Definition ffmpeg_missing (E : env) : Prop :=
  ∃ c msg, ffmpeg_version E = Raise c msg
           ∧ (c = CalledProcessError ∨ c = FileNotFoundError).

(** A host without ffmpeg. *)
Definition no_ffmpeg_env : env := {|
  ffmpeg_version :=
    Raise FileNotFoundError (str "[Errno 2] No such file or directory: 'ffmpeg'");
  mkstemp := mkstemp sample_env;
  VideoFileClip := VideoFileClip sample_env;
  write_audiofile := write_audiofile sample_env;
  whisper_model := whisper_model sample_env;
  to_excel := to_excel sample_env;
  strict_json := strict_json sample_env;
  write_audiofile_left := write_audiofile_left sample_env;
  to_excel_left := to_excel_left sample_env
|}.

(** A host on which [load_model] has not run, and one whose model fails. *)
Definition unloaded_env : env := {|
  ffmpeg_version := ffmpeg_version sample_env;
  mkstemp := mkstemp sample_env;
  VideoFileClip := VideoFileClip sample_env;
  write_audiofile := write_audiofile sample_env;
  whisper_model := None;
  to_excel := to_excel sample_env;
  strict_json := strict_json sample_env;
  write_audiofile_left := write_audiofile_left sample_env;
  to_excel_left := to_excel_left sample_env
|}.

Definition failing_model_env : env := {|
  ffmpeg_version := ffmpeg_version sample_env;
  mkstemp := mkstemp sample_env;
  VideoFileClip := VideoFileClip sample_env;
  write_audiofile := write_audiofile sample_env;
  whisper_model := Some (fun _ => Raise Exception (str "CUDA out of memory"));
  to_excel := to_excel sample_env;
  strict_json := strict_json sample_env;
  write_audiofile_left := write_audiofile_left sample_env;
  to_excel_left := to_excel_left sample_env
|}.

(** A host whose audio writer fails after the first four bytes. *)
Definition broken_write_env : env := {|
  ffmpeg_version := ffmpeg_version sample_env;
  mkstemp := mkstemp sample_env;
  VideoFileClip := VideoFileClip sample_env;
  write_audiofile := fun track => Raise Exception (str "[Errno 28] No space left on device");
  whisper_model := whisper_model sample_env;
  to_excel := to_excel sample_env;
  strict_json := strict_json sample_env;
  write_audiofile_left := fun track => [82; 73; 70; 70];
  to_excel_left := to_excel_left sample_env
|}.

(** A host whose spreadsheet writer fails after it has opened the file and
    written two bytes. *)
Definition broken_excel_env : env := {|
  ffmpeg_version := ffmpeg_version sample_env;
  mkstemp := mkstemp sample_env;
  VideoFileClip := VideoFileClip sample_env;
  write_audiofile := write_audiofile sample_env;
  whisper_model := whisper_model sample_env;
  to_excel := fun df => Raise Exception (str "[Errno 28] No space left on device");
  strict_json := strict_json sample_env;
  write_audiofile_left := write_audiofile_left sample_env;
  to_excel_left := fun df => Some [80; 75]
|}.

(** A disk with one file that is none of the service's. *)
Definition busy_world : world :=
  World {[ "/srv/notes.txt" := [104; 105] ]} [] None.

(** The response that the [try] statement of [transcribe] prepares once the
    audio is extracted, from what the model does with the audio file
    [audio]. *)
Definition transcription_reply (E : env) (audio : option blob) : response :=
  match whisper_model E with
  | None => error_response 500 (str "Whisper model not loaded")
  | Some model =>
      match model audio with
      | Ret t =>
          match extract_info (VStr t) with
          | Ret d =>
              Response 200 (Json (VDict
                {[ "transcription" := VStr t; "extracted_info" := VDict d ]}))
          | Raise _ msg => error_response 500 msg
          end
      | Raise _ [] => error_response 500 (str "expected string or bytes-like object")
      | Raise _ msg => error_response 500 msg
      end
  end.

(** [get_json] returns a value that [if not data] takes for no data. *)
Definition no_data (E : env) (req : request) : Prop :=
  ∃ data, get_json E req = Ret data ∧ truthy data = false.

(** The message of the [AttributeError] of [v.get]. *)
Definition no_get (v : value) : text :=
  str ("'" ++ type_name v ++ "' object has no attribute 'get'").

(** Export requests with a JSON document as body. *)
Definition json_post (v : value) : request := Request ∅ true (Document v).

(** A loader of models that answers with a model naming its device. *)
Definition sample_loader (name device : string) : res (option blob → res text) :=
  Ret (fun _ => Ret (str (name ++ " on " ++ device))).

(** A host whose spreadsheet writer lists the strings of the cells, one per
    line. *)
Definition listing_env : env := {|
  ffmpeg_version := ffmpeg_version sample_env;
  mkstemp := mkstemp sample_env;
  VideoFileClip := VideoFileClip sample_env;
  write_audiofile := write_audiofile sample_env;
  whisper_model := whisper_model sample_env;
  to_excel := fun df =>
    Ret (flat_map (fun row : list (string * value) =>
           flat_map (fun cell : string * value =>
             match cell.2 with
             | VStr t => (t ++ [10])%list
             | _ => [10]
             end) row) df);
  strict_json := strict_json sample_env;
  write_audiofile_left := write_audiofile_left sample_env;
  to_excel_left := to_excel_left sample_env
|}.

(** ** Proof automation *)

(** Unfolds the monad and the control combinators, down to state passing. *)
Ltac run :=
  unfold try_finally, try_except, call, when, modify, lift, raise, get_world;
  unfold mbind, mret, M_bind, M_ret; cbn.

(** Case analysis on the comparisons of a goal over [N], pruned by [lia]. *)
Ltac ncases :=
  cbn [andb orb negb] in *; try lia;
  match goal with
  | |- context [N.leb ?a ?b] => destruct (N.leb_spec a b); ncases
  | |- context [N.eqb ?a ?b] => destruct (N.eqb_spec a b); ncases
  | _ => cbn; try reflexivity; try lia
  end.

(** * Properties of extract_info *)

Section ExtractInfo.
Implicit Types (t pre post rest : text) (trigger : string).

Lemma first_match_hit trigger patterns t g :
  search trigger t = Some g →
  first_match (trigger :: patterns) (VStr t) = Ret (Some (strip g)).
Proof. intros Hs. cbn. rewrite Hs. reflexivity. Qed.

Lemma first_match_miss trigger patterns t :
  search trigger t = None →
  first_match (trigger :: patterns) (VStr t) = first_match patterns (VStr t).
Proof. intros Hs. cbn. rewrite Hs. reflexivity. Qed.

(** On a string the pattern loop never raises. *)
Lemma first_match_returns patterns t :
  ∃ o, first_match patterns (VStr t) = Ret o.
Proof.
  induction patterns as [|trigger patterns IH].
  - exists None. reflexivity.
  - destruct (search trigger t) as [g|] eqn:Hs.
    + exists (Some (strip g)). by apply first_match_hit.
    + destruct IH as [o Ho]. exists o. by rewrite first_match_miss.
Qed.

Lemma first_match_none patterns t :
  Forall (λ trigger, search trigger t = None) patterns →
  first_match patterns (VStr t) = Ret None.
Proof.
  induction 1 as [|trigger patterns Hs _ IH]; [reflexivity|].
  by rewrite first_match_miss.
Qed.

(** [extract_info] in terms of its two loops. *)
Lemma extract_info_unfold t n l :
  first_match name_patterns (VStr t) = Ret n →
  first_match location_patterns (VStr t) = Ret l →
  extract_info (VStr t)
  = Ret {[ "name" := from_option VStr VNone n;
           "location" := from_option VStr VNone l ]}.
Proof.
  intros Hn Hl. unfold extract_info. rewrite Hn, Hl. cbn.
  f_equal. destruct n, l; cbn; apply map_eq; intros k;
    destruct (decide (k = "name")); destruct (decide (k = "location"));
    by simplify_map_eq.
Qed.






Lemma field_name_first_match t n :
  first_match name_patterns (VStr t) = Ret n →
  field "name" (extract_info (VStr t)) = Some (from_option VStr VNone n).
Proof.
  intros Hn. destruct (first_match_returns location_patterns t) as [l Hl].
  rewrite (extract_info_unfold _ _ _ Hn Hl). cbn. by simplify_map_eq.
Qed.
End ExtractInfo.




(** C5: a text in which both the "my name is X" pattern and the "i'm Y"
    pattern match yields the stripped capture of "my name is X", whatever the
    capture Y of "i'm Y" is. *)
Theorem name_priority (t x y : text) :
  search "my name is " t = Some x →
  search "i'm " t = Some y →
  field "name" (extract_info (VStr t)) = Some (VStr (strip x)).
Proof.
  intros Hx _.
  rewrite (field_name_first_match _ (Some (strip x))); [reflexivity|].
  by apply first_match_hit.
Qed.

Lemma name_priority_witness :
  field "name" (extract_info (VStr (str "I'm Bob, but my name is Alice.")))
  = Some (VStr (str "Alice")).
Proof.
  apply (name_priority (str "I'm Bob, but my name is Alice.") (str "Alice") (str "Bob"));
    vm_compute; reflexivity.
Defined.

(** C6: on every text [extract_info] returns, without raising, a dictionary
    with exactly the keys [name] and [location]; when no name pattern and no
    location pattern matches, both values are [None]. *)
Theorem extract_info_total (t : text) :
  (∃ n l, extract_info (VStr t) = Ret {[ "name" := n; "location" := l ]})
  ∧ (Forall (λ trigger, search trigger t = None) name_patterns →
     Forall (λ trigger, search trigger t = None) location_patterns →
     extract_info (VStr t) = Ret {[ "name" := VNone; "location" := VNone ]}).
Proof.
  split.
  - destruct (first_match_returns name_patterns t) as [n Hn].
    destruct (first_match_returns location_patterns t) as [l Hl].
    eexists _, _. by apply extract_info_unfold.
  - intros Hn%first_match_none Hl%first_match_none.
    by rewrite (extract_info_unfold _ _ _ Hn Hl).
Qed.

Lemma extract_info_total_witness :
  extract_info (VStr (str "The weather is fine today."))
  = Ret {[ "name" := VNone; "location" := VNone ]}.
Proof.
  apply (extract_info_total (str "The weather is fine today."));
    repeat constructor.
Defined.

(** Anything but a string makes [re.search] raise, and [extract_info] with
    it. *)
Example extract_info_none :
  extract_info VNone = Raise TypeError (str "expected string or bytes-like object").
Proof. reflexivity. Qed.

(** * Properties of the pipeline stages *)

Section Stages.
Context (E : env).

Lemma check_ffmpeg_handled w :
  probe_handled (ffmpeg_version E) →
  ∃ ok, check_ffmpeg E w = (Ret ok, w).
Proof.
  unfold check_ffmpeg, call. destruct w as [f ts v].
  destruct (ffmpeg_version E) as [[]|c msg]; cbn.
  - by exists true.
  - destruct c; cbn; intros []; by exists false.
Qed.

Lemma check_ffmpeg_escapes w c msg :
  ffmpeg_version E = Raise c msg →
  c ≠ CalledProcessError → c ≠ FileNotFoundError →
  check_ffmpeg E w = (Raise c msg, w).
Proof.
  intros HE ??. unfold check_ffmpeg, call. rewrite HE.
  destruct w as [f ts v]. by destruct c.
Qed.

Lemma transcribe_audio_pair audio_path w :
  ∃ p, (transcribe_audio E audio_path w).1 = Ret p ∧ one_null p.
Proof.
  unfold transcribe_audio, whisper_transcribe, one_null.
  destruct (whisper_model E) as [model|]; run.
  - match goal with |- context [model ?b] => destruct (model b) as [result|c msg] end;
      cbn; eexists; (split; [reflexivity|]); cbn; eauto.
  - eexists; (split; [reflexivity|]); cbn; eauto.
Qed.

Lemma extract_audio_pair video_path w :
  probe_handled (ffmpeg_version E) →
  ∃ p, (extract_audio E video_path w).1 = Ret p ∧ one_null p.
Proof.
  intros Hp. unfold extract_audio, call at 1.
  destruct (check_ffmpeg_handled (set_audio_path_var None w) Hp) as [ok Hok].
  unfold mbind at 1, M_bind at 1. rewrite Hok.
  unfold one_null. destruct ok; cbn.
  - unfold NamedTemporaryFile, open_clip, write_audio, write_file; run.
    match goal with
    | |- context [VideoFileClip E ?b] =>
        destruct (VideoFileClip E b) as [[[track|]]|c msg]
    end; cbn.
    + destruct (write_audiofile E track) as [wav|c msg]; cbn;
        eexists; (split; [reflexivity|]); cbn; eauto.
    + eexists; (split; [reflexivity|]); cbn; eauto.
    + eexists; (split; [reflexivity|]); cbn; eauto.
  - eexists; (split; [reflexivity|]); cbn; eauto.
Qed.

Lemma extract_audio_escapes video_path w c msg :
  ffmpeg_version E = Raise c msg →
  c ≠ CalledProcessError → c ≠ FileNotFoundError →
  extract_audio E video_path w = (Raise c msg, w).
Proof.
  intros HE ??. unfold extract_audio, call at 1.
  unfold mbind at 1, M_bind at 1.
  rewrite (check_ffmpeg_escapes _ c msg) by done. by destruct w.
Qed.
End Stages.

(** C9 as stated fails: an exception of the ffmpeg probe that [check_ffmpeg]
    does not list leaves [extract_audio], which calls [check_ffmpeg] before
    its [try]. *)
Lemma extract_audio_raises :
  ¬ ∃ p, (extract_audio locked_ffmpeg_env "/tmp/upload.mp4" empty_world).1 = Ret p.
Proof. intros [p Hp]. vm_compute in Hp. discriminate. Qed.

(** C9, amended: [transcribe_audio] always returns a pair with exactly one
    [None] component and lets no exception escape; so does [extract_audio]
    whenever the ffmpeg probe succeeds or fails with [CalledProcessError] or
    [FileNotFoundError]; any other exception of the probe propagates out of
    [extract_audio] unchanged. *)
Theorem result_pairs (E : env) (p : string) (audio_path : option string) (w : world) :
  (∃ r, (transcribe_audio E audio_path w).1 = Ret r ∧ one_null r)
  ∧ (probe_handled (ffmpeg_version E) →
     ∃ r, (extract_audio E p w).1 = Ret r ∧ one_null r)
  ∧ (∀ c msg, ffmpeg_version E = Raise c msg →
     c ≠ CalledProcessError → c ≠ FileNotFoundError →
     extract_audio E p w = (Raise c msg, w)).
Proof.
  split; [apply transcribe_audio_pair|].
  split; [apply extract_audio_pair|].
  intros c msg. apply extract_audio_escapes.
Qed.

Lemma result_pairs_witness :
  probe_handled (ffmpeg_version sample_env)
  ∧ ∃ r, (extract_audio sample_env "/tmp/upload.mp4" empty_world).1 = Ret r ∧ one_null r.
Proof.
  split; [exact I|].
  apply (result_pairs sample_env "/tmp/upload.mp4" None empty_world). exact I.
Defined.

(** * Properties of the /transcribe endpoint *)

Section Transcribe.
Context (E : env).
#[local] Arguments extract_info : simpl never.

Lemma transcribe_audio_state audio_path w : (transcribe_audio E audio_path w).2 = w.
Proof.
  unfold transcribe_audio, whisper_transcribe.
  destruct (whisper_model E) as [model|]; run.
  - match goal with |- context [model ?b] => destruct (model b) end; by destruct w.
  - by destruct w.
Qed.

(** A video without an audio stream: [extract_audio] reports it and leaves
    the .wav file it has just allocated. *)
Lemma extract_audio_no_stream video_path w :
  ffmpeg_version E = Ret tt →
  VideoFileClip E (<[ mkstemp E (dom (fs w)) ".wav" := [] ]> (fs w) !! video_path)
  = Ret (Clip None) →
  extract_audio E video_path w
  = (Ret (None, Some (str "No audio stream found in video")),
     World (<[ mkstemp E (dom (fs w)) ".wav" := [] ]> (fs w))
           (temps w ++ [mkstemp E (dom (fs w)) ".wav"]) (audio_path_var w)).
Proof.
  intros Hff Hclip. unfold extract_audio, check_ffmpeg, NamedTemporaryFile, open_clip.
  rewrite Hff. run. rewrite Hclip. reflexivity.
Qed.

(** After a failed extraction the [try] statement ends with [audio_path]
    bound to [None], whatever response it has prepared. *)
Lemma pipeline_failed_extraction video_path err w w1 :
  extract_audio E video_path w = (Ret (None, err), w1) →
  ∃ r, try_except (pipeline E video_path) (λ msg, mret (error_response 500 msg)) w
       = (Ret r, set_audio_path_var (Some None) w1).
Proof.
  intros Hx. unfold pipeline. run. rewrite Hx.
  destruct (truthy_str err); cbn; [eauto|].
  pose proof (transcribe_audio_state None (set_audio_path_var (Some None) w1)) as Hs.
  destruct (transcribe_audio E None _) as [[[transcription error]|c msg] w2];
    cbn in Hs; subst w2; [|eauto].
  destruct (truthy_str error); cbn; [eauto|].
  destruct (extract_info (of_opt transcription)); eauto.
Qed.

(** After a successful extraction it ends with [audio_path] bound to the
    path of the .wav file. *)
Lemma pipeline_after_extraction video_path audio_path w w1 :
  extract_audio E video_path w = (Ret (Some audio_path, None), w1) →
  ∃ r, try_except (pipeline E video_path) (λ msg, mret (error_response 500 msg)) w
       = (Ret r, set_audio_path_var (Some (Some audio_path)) w1).
Proof.
  intros Hx. unfold pipeline. run. rewrite Hx. cbn.
  pose proof (transcribe_audio_state (Some audio_path)
                (set_audio_path_var (Some (Some audio_path)) w1)) as Hs.
  destruct (transcribe_audio E (Some audio_path) _)
    as [[[transcription error]|c msg] w2]; cbn in Hs; subst w2; [|eauto].
  destruct (truthy_str error); cbn; [eauto|].
  destruct (extract_info (of_opt transcription)); eauto.
Qed.

(** The [finally] clause with [audio_path] bound to [None]: the video file
    is removed, then [os.path.exists(None)] raises. *)
Lemma cleanup_none video_path w :
  audio_path_var w = Some None →
  cleanup video_path w = (Raise TypeError stat_none, set_fs (delete video_path) w).
Proof.
  intros Hv. unfold cleanup, os_path_exists, os_remove. run.
  destruct w as [f ts v]. cbn in *. subst v.
  case_bool_decide as Hin; cbn.
  - rewrite bool_decide_eq_true_2 by done. reflexivity.
  - unfold set_fs. cbn. rewrite delete_id; [done|]. by apply not_elem_of_dom.
Qed.

(** The [finally] clause with [audio_path] bound to a path: both files are
    removed. *)
Lemma cleanup_path video_path audio_path w :
  audio_path_var w = Some (Some audio_path) →
  cleanup video_path w
  = (Ret tt, set_fs (λ f, delete audio_path (delete video_path f)) w).
Proof.
  intros Hv. unfold cleanup, os_path_exists, os_remove. run.
  destruct w as [f ts v]. cbn in *. subst v. unfold set_fs. cbn.
  case_bool_decide as Hv; cbn.
  - rewrite bool_decide_eq_true_2 by done. cbn.
    case_bool_decide as Ha; cbn.
    + rewrite bool_decide_eq_true_2 by done. reflexivity.
    + rewrite (delete_id (delete _ _)); [done|]. by apply not_elem_of_dom.
  - rewrite (delete_id f video_path) by by apply not_elem_of_dom.
    case_bool_decide as Ha; cbn.
    + rewrite bool_decide_eq_true_2 by done. reflexivity.
    + rewrite delete_id; [done|]. by apply not_elem_of_dom.
Qed.

Lemma transcribe_staged req w file :
  files req !! "video" = Some file →
  transcribe E req w
  = call (try_finally
            (try_except (pipeline E (mkstemp E (dom (fs w)) ".mp4"))
               (λ msg, mret (error_response 500 msg)))
            (cleanup (mkstemp E (dom (fs w)) ".mp4")) ∘ (λ _, staged E file w)) w.
Proof.
  intros Hf. unfold transcribe. rewrite Hf.
  unfold call, NamedTemporaryFile, write_file, modify.
  unfold mbind at 1 2, M_bind at 1 2. reflexivity.
Qed.

(** Every failed extraction: the handler raises [TypeError] out of its
    [finally] clause, and what [extract_audio] left on disk stays there. *)
Lemma transcribe_failed_extraction req w file err w1 :
  files req !! "video" = Some file →
  extract_audio E (mkstemp E (dom (fs w)) ".mp4") (staged E file w) = (Ret (None, err), w1) →
  transcribe E req w
  = (Raise TypeError stat_none,
     World (delete (mkstemp E (dom (fs w)) ".mp4") (fs w1)) (temps w1) (audio_path_var w)).
Proof.
  intros Hf Hx. rewrite (transcribe_staged _ _ _ Hf).
  unfold call, try_finally, compose.
  destruct (pipeline_failed_extraction _ _ _ _ Hx) as [r ->].
  rewrite cleanup_none by done. reflexivity.
Qed.

(** Every successful extraction: whatever happens afterwards, the handler
    returns a response and both temporary files are removed. *)
Lemma transcribe_after_extraction req w file audio_path w1 :
  files req !! "video" = Some file →
  extract_audio E (mkstemp E (dom (fs w)) ".mp4") (staged E file w)
  = (Ret (Some audio_path, None), w1) →
  ∃ r, transcribe E req w
       = (Ret r,
          World (delete audio_path (delete (mkstemp E (dom (fs w)) ".mp4") (fs w1)))
                (temps w1) (audio_path_var w)).
Proof.
  intros Hf Hx. rewrite (transcribe_staged _ _ _ Hf).
  unfold call, try_finally, compose.
  destruct (pipeline_after_extraction _ _ _ _ Hx) as [r ->].
  rewrite (cleanup_path _ audio_path) by done. by exists r.
Qed.

(** Every upload without an audio stream, on a host with a working ffmpeg:
    Flask answers 500 with its own error page; the video file is removed
    and the .wav file stays. *)
Lemma transcribe_no_audio_stream req w file :
  let video_path := mkstemp E (dom (fs w)) ".mp4" in
  let audio_path := mkstemp E (dom (fs (staged E file w))) ".wav" in
  files req !! "video" = Some file →
  ffmpeg_version E = Ret tt →
  VideoFileClip E (<[ audio_path := [] ]> (fs (staged E file w)) !! video_path)
  = Ret (Clip None) →
  serve (transcribe E req) w
  = (Response 500 ErrorPage,
     World (delete video_path (<[ audio_path := [] ]> (fs (staged E file w))))
           (temps w ++ [video_path; audio_path]) (audio_path_var w)).
Proof.
  intros video_path audio_path Hf Hff Hclip. unfold serve.
  rewrite (transcribe_failed_extraction req w file _ _ Hf
             (extract_audio_no_stream _ _ Hff Hclip)).
  cbn. by rewrite <- app_assoc.
Qed.
End Transcribe.

(** C7: a request without the [video] field is answered with status 400 and
    a JSON body with an [error] field; the state is left as it was, so no
    temporary file is created. *)
Theorem transcribe_missing_video (E : env) (req : request) (w : world) :
  files req !! "video" = None →
  serve (transcribe E req) w
  = (Response 400 (Json (VDict {[ "error" := VStr (str "No video file provided") ]})), w).
Proof.
  intros Hf. unfold serve, transcribe. rewrite Hf. run. by destruct w.
Qed.

Lemma transcribe_missing_video_witness :
  serve (transcribe sample_env no_upload) empty_world
  = (Response 400 (Json (VDict {[ "error" := VStr (str "No video file provided") ]})),
     empty_world).
Proof. apply (transcribe_missing_video sample_env no_upload empty_world). reflexivity. Defined.

(** C1, at an upload without an audio stream: the request creates one video
    and one audio temporary file; when the response is sent the video file is
    gone, but the .wav file allocated by [extract_audio] is still on disk. *)
Theorem audio_temp_left_behind :
  let w' := (serve (transcribe sample_env silent_upload) empty_world).2 in
  temps w' = ["/tmp/tmp0.mp4"; "/tmp/tmp1.wav"]
  ∧ fs w' !! "/tmp/tmp0.mp4" = None
  ∧ fs w' !! "/tmp/tmp1.wav" = Some [].
Proof. vm_compute. done. Qed.

(** C2, at an upload without an audio stream: [extract_audio] reports "No
    audio stream found in video", but the [finally] clause of [transcribe]
    then calls [os.path.exists(None)]; the [TypeError] replaces the prepared
    JSON response, and Flask answers 500 with its own error page. *)
Theorem no_audio_stream_response :
  (extract_audio sample_env "/tmp/tmp0.mp4"
     (World {[ "/tmp/tmp0.mp4" := [0; 1; 2] ]} ["/tmp/tmp0.mp4"] None)).1
  = Ret (None, Some (str "No audio stream found in video"))
  ∧ (transcribe sample_env silent_upload empty_world).1
    = Raise TypeError
        (str "stat: path should be string, bytes, os.PathLike or integer, not NoneType")
  ∧ (serve (transcribe sample_env silent_upload) empty_world).1
    = Response 500 ErrorPage.
Proof. vm_compute. done. Qed.

(** With a working pipeline both temporary files are gone at the end. *)
Example spoken_upload_served :
  serve (transcribe sample_env spoken_upload) empty_world
  = (Response 200 (Json (VDict
       {[ "transcription" := VStr (str "Hi, my name is John Smith. I live in Paris now!");
          "extracted_info" := VDict
            {[ "name" := VStr (str "John Smith");
               "location" := VStr (str "Paris now") ]} ]})),
     World ∅ ["/tmp/tmp0.mp4"; "/tmp/tmp1.wav"] None).
Proof. vm_compute. reflexivity. Qed.

(** * Properties of the /download_excel endpoint *)

Section DownloadExcel.
Context (E : env).

Lemma get_json_empty req :
  is_json req = true → body req = NoBody →
  ∃ msg, get_json E req = Raise BadRequest msg.
Proof. intros Hj Hb. unfold get_json. rewrite Hj, Hb. eauto. Qed.

(** Whatever [get_json] raises becomes a 500 response. *)
Lemma download_excel_get_json_raises req w c msg :
  get_json E req = Raise c msg →
  download_excel E req w = (Ret (error_response 500 msg), w).
Proof. intros Hg. unfold download_excel. run. rewrite Hg. by destruct w. Qed.

(** A falsy document ([None], [{}], [[]], the empty string, [0], [false]) is
    a 400. *)
Lemma download_excel_falsy req w data :
  get_json E req = Ret data → truthy data = false →
  download_excel E req w = (Ret (error_response 400 (str "No JSON data provided")), w).
Proof.
  intros Hg Ht. unfold download_excel. run. rewrite Hg, Ht. by destruct w.
Qed.

Lemma get_default (d : gmap string value) key fallback :
  get (VDict d) key fallback = Ret (default fallback (d !! key)).
Proof. reflexivity. Qed.

(** The frame built from a dictionary whose [extracted_info], if present,
    is a dictionary. *)
Lemma export_frame_dict (d : gmap string value) :
  (∀ v, d !! "extracted_info" = Some v → ∃ info, v = VDict info) →
  export_frame (VDict d)
  = Ret [[("Location", default (VStr (str "N/A")) (info_field d "location"));
          ("Name", default (VStr (str "N/A")) (info_field d "name"));
          ("Transcription", default (VStr []) (d !! "transcription"))]].
Proof.
  intros Hinfo. unfold export_frame, info_field. rewrite !get_default.
  destruct (d !! "extracted_info") as [v|] eqn:Hv; cbn.
  - destruct (Hinfo v eq_refl) as [info ->]. reflexivity.
  - reflexivity.
Qed.
End DownloadExcel.

(** C8, at a POST with a JSON content type and no body: [get_json] raises
    [BadRequest], the [except Exception] clause of [download_excel] catches
    it, and the answer is 500. *)
Theorem empty_json_body_is_500 :
  body empty_json_post = NoBody
  ∧ serve (download_excel sample_env empty_json_post) empty_world
    = (Response 500 (Json (VDict {[ "error" := VStr
         (str "400 Bad Request: The browser (or proxy) sent a request that this server could not understand.") ]})),
       empty_world).
Proof. vm_compute. done. Qed.

(** C4 as stated fails: a missing [transcription] is written as the empty
    string, not as "N/A". *)
Lemma missing_transcription_not_placeholder :
  partial_body !! "transcription" = None
  ∧ export_frame (VDict partial_body)
    = Ret [[("Location", VStr (str "Oslo")); ("Name", VStr (str "Ann"));
            ("Transcription", VStr [])]]
  ∧ VStr [] ≠ VStr (str "N/A").
Proof. vm_compute. done. Qed.

(** C4, amended: for a non-empty JSON object whose [extracted_info], if
    present, is an object, the workbook is written from a frame of exactly
    one row whose Location, Name and Transcription columns hold the
    corresponding input fields; a missing [extracted_info], [location] or
    [name] is written as "N/A", a missing [transcription] as the empty
    string.  The workbook is stored under the fixed path and sent as an
    attachment. *)
Theorem export_one_row (E : env) (req : request) (w : world)
    (d : gmap string value) (workbook : blob) :
  get_json E req = Ret (VDict d) →
  d ≠ ∅ →
  (∀ v, d !! "extracted_info" = Some v → ∃ info, v = VDict info) →
  to_excel E
    [[("Location", default (VStr (str "N/A")) (info_field d "location"));
      ("Name", default (VStr (str "N/A")) (info_field d "name"));
      ("Transcription", default (VStr []) (d !! "transcription"))]]
  = Ret workbook →
  serve (download_excel E req) w
  = (Response 200 (Attachment excel_path workbook),
     set_fs (insert excel_path workbook) w).
Proof.
  intros Hg Hd Hinfo Hx. unfold serve, download_excel, df_to_excel, send_file, write_file.
  unfold try_except, call, lift, mbind, mret, M_bind, M_ret.
  rewrite Hg. cbn [truthy]. rewrite bool_decide_eq_false_2 by done. cbn [negb].
  rewrite (export_frame_dict d Hinfo), Hx. cbn.
  rewrite lookup_insert_eq. by destruct w.
Qed.

Lemma export_one_row_witness :
  serve (download_excel sample_env (Request ∅ true (Document (VDict full_body)))) empty_world
  = (Response 200 (Attachment excel_path [80; 75; 3; 4]),
     set_fs (insert excel_path [80; 75; 3; 4]) empty_world).
Proof.
  apply (export_one_row sample_env _ empty_world full_body [80; 75; 3; 4]).
  - reflexivity.
  - intros Hd. apply (f_equal (λ m : gmap string value, m !! "transcription")) in Hd.
    vm_compute in Hd. discriminate.
  - intros v Hv. vm_compute in Hv. injection Hv as <-. eexists. reflexivity.
  - reflexivity.
Defined.

(** The cells of the row, key by key: the fallback of [dict.get] is used for
    an absent key only. *)
Lemma export_frame_cells (d : gmap string value) :
  (∀ v, d !! "extracted_info" = Some v → ∃ info, v = VDict info) →
  ∃ location name transcription,
    export_frame (VDict d)
    = Ret [[("Location", location); ("Name", name); ("Transcription", transcription)]]
    ∧ (∀ key cell, (key, cell) ∈ [("location", location); ("name", name)] →
         (d !! "extracted_info" = None → cell = VStr (str "N/A"))
         ∧ (∀ info, d !! "extracted_info" = Some (VDict info) →
              info !! key = None → cell = VStr (str "N/A"))
         ∧ (∀ info v, d !! "extracted_info" = Some (VDict info) →
              info !! key = Some v → cell = v))
    ∧ (d !! "transcription" = None → transcription = VStr [])
    ∧ (∀ v, d !! "transcription" = Some v → transcription = v).
Proof.
  intros Hinfo. eexists _, _, _. split; [by apply export_frame_dict|].
  split; [|split].
  - intros key cell Hin. unfold info_field.
    assert (cell = default (VStr (str "N/A"))
                     match d !! "extracted_info" with
                     | Some (VDict info) => info !! key
                     | _ => None
                     end) as ->.
    { apply elem_of_cons in Hin as [[= -> ->]|Hin]; [done|].
      apply elem_of_cons in Hin as [[= -> ->]|Hin]; [done|].
      by apply elem_of_nil in Hin. }
    split; [|split].
    + by intros ->.
    + by intros info -> ->.
    + by intros info v -> ->.
  - by intros ->.
  - by intros v ->.
Qed.

(** * Further properties of extract_info *)

Section Matching.
Implicit Types (t s g pre post rest : text) (trigger : string).

Lemma take_class_prefix t : ∃ rest, t = (take_class t ++ rest)%list.
Proof.
  induction t as [|c t [rest IH]]; [by exists []|].
  cbn. destruct (in_class c).
  - exists rest. cbn. by rewrite <- IH.
  - by exists (c :: t).
Qed.

Lemma take_class_all t : forallb in_class (take_class t) = true.
Proof.
  induction t as [|c t IH]; [done|].
  cbn. destruct (in_class c) eqn:Hc; [|done]. cbn. by rewrite Hc.
Qed.

Lemma match_literal_split p t rest :
  match_literal p t = Some rest → ∃ lit, t = (lit ++ rest)%list.
Proof.
  revert t. induction p as [|a p IH]; intros t.
  - intros [= ->]. by exists [].
  - destruct t as [|c t]; [done|]. cbn. destruct (literal_ic a c); [|done].
    intros [lit ->]%IH. by exists (c :: lit).
Qed.

(** A match at the start of the text: the group is a non-empty run of class
    characters that stands in the text. *)
Lemma match_here_group trigger t g :
  match_here trigger t = Some g →
  g ≠ [] ∧ forallb in_class g = true ∧ ∃ a b, t = (a ++ g ++ b)%list.
Proof.
  unfold match_here. destruct (match_literal _ t) as [rest|] eqn:Hl; [|done].
  destruct (take_class rest) as [|c g'] eqn:Hg; [done|]. intros [= <-].
  split; [done|]. split.
  - rewrite <- Hg. apply take_class_all.
  - apply match_literal_split in Hl as [lit ->].
    destruct (take_class_prefix rest) as [b Hb]. rewrite Hg in Hb.
    exists lit, b. by rewrite <- Hb.
Qed.

(** A successful search is a match at some suffix of the text. *)
Lemma search_suffix trigger t g :
  search trigger t = Some g →
  ∃ pre t', t = (pre ++ t')%list ∧ match_here trigger t' = Some g.
Proof.
  induction t as [|c t IH]; cbn [search].
  - destruct (match_here trigger []) eqn:Hm; [|done]. intros [= ->]. by exists [], [].
  - destruct (match_here trigger (c :: t)) eqn:Hm.
    + intros [= ->]. by exists [], (c :: t).
    + intros (pre & t' & -> & Ht')%IH. by exists (c :: pre), t'.
Qed.

(** A match at some suffix makes the search succeed. *)
Lemma search_found trigger pre t' g :
  match_here trigger t' = Some g → is_Some (search trigger (pre ++ t')).
Proof.
  intros Hm. induction pre as [|c pre IH].
  - cbn [app]. destruct t'; cbn [search]; rewrite Hm; eauto.
  - change ((c :: pre) ++ t')%list with (c :: (pre ++ t'))%list. cbn [search].
    destruct (match_here trigger (c :: pre ++ t')%list); eauto.
Qed.

Lemma search_group trigger t g :
  search trigger t = Some g →
  g ≠ [] ∧ forallb in_class g = true ∧ ∃ a b, t = (a ++ g ++ b)%list.
Proof.
  intros (pre & t' & -> & (Hne & Hall & a & b & ->)%match_here_group)%search_suffix.
  split; [done|]. split; [done|]. exists (pre ++ a)%list, b. by rewrite <- app_assoc.
Qed.

Lemma lstrip_split t :
  ∃ ws, t = (ws ++ lstrip t)%list.
Proof.
  induction t as [|c t [ws IH]]; [by exists []|].
  cbn. destruct (is_space c); [|by exists []].
  exists (c :: ws). cbn. by rewrite <- IH.
Qed.

Lemma lstrip_head t :
  match head (lstrip t) with Some c => is_space c = false | None => True end.
Proof.
  induction t as [|c t IH]; [done|].
  cbn. destruct (is_space c) eqn:Hc; [done|]. cbn. done.
Qed.

Lemma rstrip_split t : ∃ ws, t = (rstrip t ++ ws)%list.
Proof.
  unfold rstrip. destruct (lstrip_split (rev t)) as [ws Hws].
  exists (rev ws). rewrite <- rev_app_distr, <- Hws. by rewrite rev_involutive.
Qed.

Lemma rstrip_last t :
  match last (rstrip t) with Some c => is_space c = false | None => True end.
Proof.
  unfold rstrip. rewrite (rev_alt (lstrip (rev t))).
  change (rev_append (lstrip (rev t)) []) with (reverse (lstrip (rev t))).
  rewrite last_reverse. apply lstrip_head.
Qed.

Lemma strip_split t : ∃ ws1 ws2, t = (ws1 ++ strip t ++ ws2)%list.
Proof.
  unfold strip. destruct (lstrip_split t) as [ws1 H1].
  destruct (rstrip_split (lstrip t)) as [ws2 H2].
  exists ws1, ws2. by rewrite <- H2.
Qed.

Lemma strip_trimmed t : trimmed (strip t) = true.
Proof.
  unfold trimmed. apply andb_true_iff. split.
  - unfold strip. destruct (rstrip_split (lstrip t)) as [ws Hws].
    pose proof (lstrip_head t) as Hh. rewrite Hws in Hh.
    destruct (rstrip (lstrip t)) as [|c u]; [done|]. cbn in *. by rewrite Hh.
  - pose proof (rstrip_last (lstrip t)) as Hl. unfold strip.
    destruct (last _); [by rewrite Hl|done].
Qed.

Lemma forallb_infix (P : N → bool) (a s b : text) :
  forallb P (a ++ s ++ b) = true → forallb P s = true.
Proof.
  rewrite !forallb_app. intros [_ [Hs _]%andb_true_iff]%andb_true_iff. done.
Qed.

Lemma strip_spaces t : forallb is_space t = true → strip t = [].
Proof.
  intros Ht. unfold strip.
  assert (lstrip t = []) as ->; [|done].
  induction t as [|c t IH]; [done|].
  cbn in *. apply andb_true_iff in Ht as [-> Ht]. by apply IH.
Qed.

(** The loop in terms of its patterns. *)
Lemma first_match_some patterns t s :
  first_match patterns (VStr t) = Ret (Some s) →
  ∃ trigger g, trigger ∈ patterns ∧ search trigger t = Some g ∧ s = strip g.
Proof.
  induction patterns as [|trigger patterns IH]; [done|].
  destruct (search trigger t) as [g|] eqn:Hs.
  - rewrite (first_match_hit _ _ _ _ Hs). intros [= <-].
    exists trigger, g. split; [left|done].
  - rewrite (first_match_miss _ _ _ Hs).
    intros (q & g & Hq & Hg & ->)%IH. exists q, g. split; [by right|done].
Qed.

Lemma first_match_none_inv patterns t :
  first_match patterns (VStr t) = Ret None →
  Forall (λ trigger, search trigger t = None) patterns.
Proof.
  induction patterns as [|trigger patterns IH]; [constructor|].
  destruct (search trigger t) as [g|] eqn:Hs.
  - by rewrite (first_match_hit _ _ _ _ Hs).
  - rewrite (first_match_miss _ _ _ Hs). intros ?%IH. by constructor.
Qed.

Lemma first_match_priority (earlier later : list string) trigger t g :
  Forall (λ q, search q t = None) earlier →
  search trigger t = Some g →
  first_match (earlier ++ trigger :: later)%list (VStr t) = Ret (Some (strip g)).
Proof.
  induction 1 as [|q earlier Hq _ IH]; intros Hs.
  - by apply first_match_hit.
  - cbn [app]. rewrite (first_match_miss _ _ _ Hq). by apply IH.
Qed.

(** Either field of [extract_info] is what the loop over its patterns
    gives. *)
Lemma field_first_match key patterns t o :
  (key, patterns) ∈ field_patterns →
  first_match patterns (VStr t) = Ret o →
  field key (extract_info (VStr t)) = Some (from_option VStr VNone o).
Proof.
  intros Hin Ho.
  apply elem_of_cons in Hin as [[= -> ->]|Hin].
  { by apply field_name_first_match. }
  apply elem_of_cons in Hin as [[= -> ->]|Hin]; [|by apply elem_of_nil in Hin].
  destruct (first_match_returns name_patterns t) as [n Hn].
  rewrite (extract_info_unfold _ _ _ Hn Ho). cbn. by simplify_map_eq.
Qed.

Lemma field_inv key patterns t s :
  (key, patterns) ∈ field_patterns →
  field key (extract_info (VStr t)) = Some (VStr s) →
  ∃ trigger g, trigger ∈ patterns ∧ search trigger t = Some g ∧ s = strip g.
Proof.
  intros Hin Hf. destruct (first_match_returns patterns t) as [o Ho].
  rewrite (field_first_match _ _ _ _ Hin Ho) in Hf.
  destruct o as [s'|]; [|done]. injection Hf as ->.
  by apply first_match_some.
Qed.
End Matching.

Section CaseFolding.
Implicit Types (t s g : text) (trigger : string) (c p : N).

Lemma is_space_upper c : is_space (ascii_upper c) = is_space c.
Proof.
  unfold ascii_upper. destruct (N.leb_spec 97 c); [|reflexivity].
  destruct (N.leb_spec c 122); [|reflexivity]. cbn [andb].
  unfold is_space. ncases.
Qed.

Lemma in_class_upper c : in_class (ascii_upper c) = in_class c.
Proof.
  unfold in_class. rewrite is_space_upper. f_equal.
  unfold ascii_upper. destruct (N.leb_spec 97 c); [|reflexivity].
  destruct (N.leb_spec c 122); [|reflexivity]. cbn [andb].
  unfold is_ascii_letter. ncases.
Qed.

Lemma literal_ic_upper p c : literal_ic p (ascii_upper c) = literal_ic p c.
Proof.
  unfold literal_ic. generalize (ascii_lower p). intros q.
  unfold ascii_upper. destruct (N.leb_spec 97 c); [|reflexivity].
  destruct (N.leb_spec c 122); [|reflexivity]. cbn [andb].
  unfold ascii_lower. ncases.
Qed.

Lemma match_literal_upper (lit : text) t :
  match_literal lit (map ascii_upper t) = map ascii_upper <$> match_literal lit t.
Proof.
  revert t. induction lit as [|a lit IH]; intros [|c t]; try reflexivity.
  cbn. rewrite literal_ic_upper. destruct (literal_ic a c); [apply IH|reflexivity].
Qed.

Lemma take_class_upper t :
  take_class (map ascii_upper t) = map ascii_upper (take_class t).
Proof.
  induction t as [|c t IH]; [reflexivity|].
  cbn. rewrite in_class_upper. destruct (in_class c); [|reflexivity].
  cbn. by rewrite IH.
Qed.

Lemma match_here_upper trigger t :
  match_here trigger (map ascii_upper t) = map ascii_upper <$> match_here trigger t.
Proof.
  unfold match_here. rewrite match_literal_upper.
  destruct (match_literal (str trigger) t) as [rest|]; [|reflexivity].
  cbn. rewrite take_class_upper. by destruct (take_class rest).
Qed.

Lemma search_upper trigger t :
  search trigger (map ascii_upper t) = map ascii_upper <$> search trigger t.
Proof.
  induction t as [|c t IH].
  - cbn [search map]. change [] with (map ascii_upper []) at 1.
    rewrite match_here_upper. by destruct (match_here trigger []).
  - cbn [search]. change (map ascii_upper (c :: t)) with (ascii_upper c :: map ascii_upper t).
    cbn [search]. change (ascii_upper c :: map ascii_upper t) with (map ascii_upper (c :: t)).
    rewrite match_here_upper. destruct (match_here trigger (c :: t)); [reflexivity|].
    cbn. apply IH.
Qed.

Lemma lstrip_upper t : lstrip (map ascii_upper t) = map ascii_upper (lstrip t).
Proof.
  induction t as [|c t IH]; [reflexivity|].
  cbn. rewrite is_space_upper. by destruct (is_space c).
Qed.

Lemma strip_upper t : strip (map ascii_upper t) = map ascii_upper (strip t).
Proof.
  unfold strip, rstrip. by rewrite lstrip_upper, <- map_rev, lstrip_upper, <- map_rev.
Qed.

Lemma first_match_upper patterns t o :
  first_match patterns (VStr t) = Ret o →
  first_match patterns (VStr (map ascii_upper t)) = Ret (map ascii_upper <$> o).
Proof.
  revert o. induction patterns as [|trigger patterns IH]; intros o.
  - by intros [= <-].
  - destruct (search trigger t) as [g|] eqn:Hs.
    + rewrite (first_match_hit _ _ _ _ Hs). intros [= <-].
      rewrite (first_match_hit _ _ _ (map ascii_upper g)).
      * cbn. by rewrite strip_upper.
      * by rewrite search_upper, Hs.
    + rewrite (first_match_miss _ _ _ Hs). intros Ho.
      rewrite first_match_miss; [by apply IH|]. by rewrite search_upper, Hs.
Qed.

(** A pattern character that is an ASCII letter only matches characters of
    the class of the group. *)
Lemma literal_letter_class p c :
  is_ascii_letter p = true → literal_ic p c = true → in_class c = true.
Proof.
  unfold is_ascii_letter, literal_ic, in_class, is_ascii_letter, ascii_lower.
  intros Hp Hc. revert Hp Hc.
  destruct (N.eqb_spec c 304) as [->|]; [done|].
  destruct (N.eqb_spec c 305) as [->|]; [done|].
  destruct (N.eqb_spec c 383) as [->|]; [done|].
  destruct (N.eqb_spec c 8490) as [->|]; [done|].
  rewrite !andb_false_r, !orb_false_r.
  destruct (N.leb_spec 65 p), (N.leb_spec p 90), (N.leb_spec 97 p), (N.leb_spec p 122);
    cbn; try done; intros _;
    destruct (N.leb_spec 65 c), (N.leb_spec c 90), (N.leb_spec 97 c), (N.leb_spec c 122);
    cbn; try done; intros ?%N.eqb_eq; lia.
Qed.

Lemma match_literal_app (p1 p2 : text) t :
  match_literal (p1 ++ p2) t = match_literal p1 t ≫= match_literal p2.
Proof.
  revert t. induction p1 as [|a p1 IH]; intros t; [reflexivity|].
  destruct t as [|c t]; [reflexivity|]. cbn. by destruct (literal_ic a c).
Qed.

(** A pattern that goes on with a letter after a shorter pattern: where the
    longer one matches, the shorter one does. *)
Lemma match_here_shorter (short long : string) (a : N) (more : text) t g :
  str long = (str short ++ a :: more)%list →
  is_ascii_letter a = true →
  match_here long t = Some g →
  is_Some (match_here short t).
Proof.
  intros Hlong Ha. unfold match_here. rewrite Hlong, match_literal_app.
  destruct (match_literal (str short) t) as [[|c rest]|]; cbn; try done.
  destruct (literal_ic a c) eqn:Hc; [|done]. intros _.
  by rewrite (literal_letter_class _ _ Ha Hc).
Qed.

Lemma search_shorter (short long : string) (a : N) (more : text) t :
  str long = (str short ++ a :: more)%list →
  is_ascii_letter a = true →
  is_Some (search long t) → is_Some (search short t).
Proof.
  intros Hlong Ha [g (pre & t' & -> & Hm)%search_suffix].
  destruct (match_here_shorter _ _ _ _ _ _ Hlong Ha Hm) as [g' Hg'].
  by apply (search_found _ _ _ g').
Qed.
End CaseFolding.

(** X1: a name or location that [extract_info] returns is made of letters
    and white space only, has no white space at either end, and stands in the
    text as it is. *)
Theorem extracted_field_clean (key : string) (patterns : list string) (t s : text) :
  (key, patterns) ∈ field_patterns →
  field key (extract_info (VStr t)) = Some (VStr s) →
  forallb in_class s = true ∧ trimmed s = true ∧ ∃ a b, t = (a ++ s ++ b)%list.
Proof.
  intros Hin (trigger & g & _ & Hs & ->)%(field_inv _ _ _ _ Hin).
  apply search_group in Hs as (_ & Hall & a & b & ->).
  destruct (strip_split g) as (ws1 & ws2 & Hg).
  split; [|split].
  - rewrite Hg in Hall. by apply forallb_infix in Hall.
  - apply strip_trimmed.
  - exists (a ++ ws1)%list, (ws2 ++ b)%list.
    rewrite Hg at 1. by rewrite <- !app_assoc.
Qed.

Lemma extracted_field_clean_witness :
  forallb in_class (str "Paris now") = true
  ∧ trimmed (str "Paris now") = true
  ∧ ∃ a b, str "Hi, I live in  Paris now! Bye" = (a ++ str "Paris now" ++ b)%list.
Proof.
  apply (extracted_field_clean "location" location_patterns
           (str "Hi, I live in  Paris now! Bye") (str "Paris now")).
  - repeat constructor.
  - vm_compute. reflexivity.
Defined.

(** X2: a field of [extract_info] is [None] exactly when no pattern of its
    list matches the text. *)
Theorem field_null_iff (key : string) (patterns : list string) (t : text) :
  (key, patterns) ∈ field_patterns →
  field key (extract_info (VStr t)) = Some VNone
  ↔ Forall (λ trigger, search trigger t = None) patterns.
Proof.
  intros Hin. destruct (first_match_returns patterns t) as [o Ho].
  rewrite (field_first_match _ _ _ _ Hin Ho). split.
  - destruct o; [done|]. intros _. by apply first_match_none_inv.
  - intros Hn%first_match_none. rewrite Hn in Ho. by injection Ho as <-.
Qed.

Lemma field_null_iff_witness :
  field "location" (extract_info (VStr (str "my name is Ann"))) = Some VNone.
Proof.
  apply (field_null_iff "location" location_patterns (str "my name is Ann")).
  - repeat constructor.
  - repeat constructor.
Defined.

(** X3: matching ignores the case of ASCII letters: the text in upper case
    gives the fields of the text, in upper case. *)
Theorem extract_info_upper (key : string) (t : text) :
  field key (extract_info (VStr (map ascii_upper t)))
  = upper_value <$> field key (extract_info (VStr t)).
Proof.
  destruct (first_match_returns name_patterns t) as [n Hn].
  destruct (first_match_returns location_patterns t) as [l Hl].
  rewrite (extract_info_unfold _ _ _ Hn Hl).
  rewrite (extract_info_unfold _ _ _ (first_match_upper _ _ _ Hn)
             (first_match_upper _ _ _ Hl)).
  cbn [field].
  destruct (decide (key = "name")) as [->|?];
    [|destruct (decide (key = "location")) as [->|?]];
    simplify_map_eq; by destruct n, l.
Qed.

(** X4: the phrases of the location patterns "i'm from X" and "i am from X"
    are matched by the name patterns "i'm X" and "i am X" as well: a text
    with such a phrase never has a null name. *)
Theorem from_phrase_gives_name (t : text) :
  is_Some (search "i'm from " t) ∨ is_Some (search "i am from " t) →
  ∃ n, field "name" (extract_info (VStr t)) = Some (VStr n).
Proof.
  intros Hfrom.
  assert (∃ trigger, trigger ∈ name_patterns ∧ is_Some (search trigger t))
    as (trigger & Hin & [g Hg]).
  { destruct Hfrom as [H|H].
    - exists "i'm ". split; [repeat constructor|].
      by apply (search_shorter "i'm " "i'm from " 102 (str "rom ")).
    - exists "i am ". split; [repeat constructor|].
      by apply (search_shorter "i am " "i am from " 102 (str "rom ")). }
  destruct (first_match_returns name_patterns t) as [[n|] Ho].
  - exists n. by apply (field_name_first_match _ (Some n)).
  - apply first_match_none_inv in Ho.
    rewrite Forall_forall in Ho. rewrite (Ho _ Hin) in Hg. done.
Qed.

Lemma from_phrase_gives_name_witness :
  ∃ n, field "name" (extract_info (VStr (str "Well, I'm from Leeds."))) = Some (VStr n).
Proof.
  apply (from_phrase_gives_name (str "Well, I'm from Leeds.")).
  left. vm_compute. eexists. reflexivity.
Defined.

(** X5: the patterns of either list are tried in the order of the source: a
    pattern whose predecessors do not match gives the field, stripped. *)
Theorem field_priority (key : string) (earlier later : list string)
    (trigger : string) (t g : text) :
  (key, (earlier ++ trigger :: later)%list) ∈ field_patterns →
  Forall (λ q, search q t = None) earlier →
  search trigger t = Some g →
  field key (extract_info (VStr t)) = Some (VStr (strip g)).
Proof.
  intros Hin Hearlier Hs.
  by rewrite (field_first_match _ _ _ _ Hin
                (first_match_priority _ _ _ _ _ Hearlier Hs)).
Qed.

Lemma field_priority_witness :
  field "location"
    (extract_info (VStr (str "I live in Oslo, then I moved to Rome.")))
  = Some (VStr (str "Oslo")).
Proof.
  apply (field_priority "location" ["i'm from "] ["i am from "; "then i moved to "]
           "i live in " (str "I live in Oslo, then I moved to Rome.") (str "Oslo")).
  - repeat constructor.
  - repeat constructor.
  - vm_compute. reflexivity.
Defined.

(** X6: a group of white space only gives the empty string, not [None]. *)
Theorem blank_capture_empty (key : string) (earlier later : list string)
    (trigger : string) (t g : text) :
  (key, (earlier ++ trigger :: later)%list) ∈ field_patterns →
  Forall (λ q, search q t = None) earlier →
  search trigger t = Some g →
  forallb is_space g = true →
  field key (extract_info (VStr t)) = Some (VStr []).
Proof.
  intros Hin Hearlier Hs Hg.
  rewrite (field_first_match _ _ _ _ Hin
             (first_match_priority _ _ _ _ _ Hearlier Hs)).
  cbn. by rewrite strip_spaces.
Qed.

Lemma blank_capture_empty_witness :
  field "name" (extract_info (VStr (str "My name is  ... well, guess."))) = Some (VStr []).
Proof.
  apply (blank_capture_empty "name" [] ["myself "; "i am "; "this is me "; "i'm "]
           "my name is " (str "My name is  ... well, guess.") (str " ")).
  - repeat constructor.
  - constructor.
  - vm_compute. reflexivity.
  - reflexivity.
Defined.

(** * Further properties of extract_audio *)

Section ExtractAudio.
Context (E : env).

Lemma restore_frame w :
  set_audio_path_var (audio_path_var w) (set_audio_path_var None w) = w.
Proof. by destruct w. Qed.

Lemma check_ffmpeg_missing w :
  ffmpeg_missing E → check_ffmpeg E w = (Ret false, w).
Proof.
  intros (c & msg & HE & Hc). unfold check_ffmpeg, call. rewrite HE.
  destruct w. by destruct Hc as [-> | ->].
Qed.

Lemma check_ffmpeg_ok w :
  ffmpeg_version E = Ret tt → check_ffmpeg E w = (Ret true, w).
Proof. intros HE. unfold check_ffmpeg, call. rewrite HE. by destruct w. Qed.

(** Every outcome of [extract_audio]: the probe's exception; the report of a
    missing ffmpeg, nothing allocated; a failure after the allocation of the
    .wav file, which is left empty or with what a failed write has put in
    it; the path of the written .wav file. *)
Lemma extract_audio_cases video_path w :
  let audio_path := mkstemp E (dom (fs w)) ".wav" in
  let holding (b : blob) :=
    World (<[ audio_path := b ]> (fs w)) (temps w ++ [audio_path]) (audio_path_var w) in
  (∃ c msg, extract_audio E video_path w = (Raise c msg, w))
  ∨ (∃ msg, extract_audio E video_path w = (Ret (None, Some msg), w))
  ∨ (∃ msg partial,
       extract_audio E video_path w = (Ret (None, Some msg), holding partial)
       ∧ (partial = []
          ∨ ∃ track c, write_audiofile E track = Raise c msg
                       ∧ partial = write_audiofile_left E track))
  ∨ (∃ wav, extract_audio E video_path w = (Ret (Some audio_path, None), holding wav)).
Proof.
  intros audio_path holding.
  remember (extract_audio E video_path w) as r eqn:Hr.
  unfold extract_audio, call at 1 in Hr. unfold mbind at 1, M_bind at 1 in Hr.
  destruct (ffmpeg_version E) as [[]|c msg] eqn:HE.
  - rewrite (check_ffmpeg_ok _ HE) in Hr. cbn [negb] in Hr.
    unfold NamedTemporaryFile, open_clip, write_audio in Hr.
    unfold try_except, mbind, mret, M_bind, M_ret in Hr. cbn in Hr.
    fold audio_path in Hr.
    destruct (VideoFileClip E _) as [[[track|]]|c msg]; cbn in Hr.
    + destruct (write_audiofile E track) as [wav|c msg] eqn:Hw;
        unfold write_file, modify, raise, set_fs in Hr; cbn in Hr;
        rewrite insert_insert_eq in Hr.
      * right. right. right. by exists wav.
      * right. right. left. exists msg, (write_audiofile_left E track).
        split; [done|]. right. eauto.
    + right. right. left. exists (str "No audio stream found in video"), [].
      split; [done|]. by left.
    + right. right. left. exists msg, []. split; [done|]. by left.
  - assert ((c = CalledProcessError ∨ c = FileNotFoundError)
            ∨ (c ≠ CalledProcessError ∧ c ≠ FileNotFoundError)) as [Hc|[??]]
      by (destruct c; (by left; eauto) || (by right)).
    + rewrite check_ffmpeg_missing in Hr by (by exists c, msg). cbn in Hr.
      right. left. rewrite restore_frame in Hr. eauto.
    + left. exists c, msg.
      rewrite (check_ffmpeg_escapes E _ c msg) in Hr by done.
      by rewrite restore_frame in Hr.
Qed.

Lemma extract_audio_missing video_path w :
  ffmpeg_missing E →
  extract_audio E video_path w
  = (Ret (None, Some (str "ffmpeg is not installed or not working properly")), w).
Proof.
  intros Hm. unfold extract_audio, call at 1. unfold mbind at 1, M_bind at 1.
  rewrite check_ffmpeg_missing by done. cbn. by rewrite restore_frame.
Qed.

Lemma extract_audio_written video_path w track wav :
  ffmpeg_version E = Ret tt →
  VideoFileClip E (<[ mkstemp E (dom (fs w)) ".wav" := [] ]> (fs w) !! video_path)
  = Ret (Clip (Some track)) →
  write_audiofile E track = Ret wav →
  extract_audio E video_path w
  = (Ret (Some (mkstemp E (dom (fs w)) ".wav"), None),
     World (<[ mkstemp E (dom (fs w)) ".wav" := wav ]> (fs w))
           (temps w ++ [mkstemp E (dom (fs w)) ".wav"]) (audio_path_var w)).
Proof.
  intros Hff Hclip Hwrite.
  unfold extract_audio, call at 1. unfold mbind at 1, M_bind at 1.
  rewrite (check_ffmpeg_ok _ Hff). cbn [negb].
  unfold NamedTemporaryFile, open_clip, write_audio, write_file. run.
  rewrite Hclip. cbn. rewrite Hwrite. cbn.
  unfold set_fs. cbn. by rewrite insert_insert_eq.
Qed.
End ExtractAudio.

(** X7: without a usable ffmpeg, [extract_audio] reports it and touches
    nothing: no temporary file is allocated, the video is not opened. *)
Theorem extract_audio_no_ffmpeg (E : env) (video_path : string) (w : world) :
  ffmpeg_missing E →
  extract_audio E video_path w
  = (Ret (None, Some (str "ffmpeg is not installed or not working properly")), w).
Proof.
  intros Hm. unfold extract_audio, call at 1. unfold mbind at 1, M_bind at 1.
  rewrite check_ffmpeg_missing by done. cbn. by rewrite restore_frame.
Qed.

Lemma extract_audio_no_ffmpeg_witness :
  extract_audio no_ffmpeg_env "/tmp/upload.mp4" busy_world
  = (Ret (None, Some (str "ffmpeg is not installed or not working properly")), busy_world).
Proof.
  apply (extract_audio_no_ffmpeg no_ffmpeg_env "/tmp/upload.mp4" busy_world).
  eexists _, _. split; [reflexivity|]. by right.
Defined.

(** X8: with a working ffmpeg, a container with an audio track and a
    successful write, [extract_audio] returns the path of a new temporary
    file that holds the written audio, and no error. *)
Theorem extract_audio_success (E : env) (video_path : string) (w : world)
    (track wav : blob) :
  let audio_path := mkstemp E (dom (fs w)) ".wav" in
  ffmpeg_version E = Ret tt →
  VideoFileClip E (<[ audio_path := [] ]> (fs w) !! video_path)
  = Ret (Clip (Some track)) →
  write_audiofile E track = Ret wav →
  extract_audio E video_path w
  = (Ret (Some audio_path, None),
     World (<[ audio_path := wav ]> (fs w)) (temps w ++ [audio_path]) (audio_path_var w)).
Proof.
  intros audio_path Hff Hclip Hwrite.
  unfold extract_audio, call at 1. unfold mbind at 1, M_bind at 1.
  rewrite (check_ffmpeg_ok _ _ Hff). cbn [negb].
  unfold NamedTemporaryFile, open_clip, write_audio, write_file. run.
  fold audio_path. rewrite Hclip. cbn. rewrite Hwrite. cbn.
  unfold set_fs. cbn. by rewrite insert_insert_eq.
Qed.

Lemma extract_audio_success_witness :
  extract_audio sample_env "/srv/in.mp4"
    (World {[ "/srv/in.mp4" := [7; 8; 9] ]} [] None)
  = (Ret (Some "/tmp/tmp1.wav", None),
     World (<[ "/tmp/tmp1.wav" := [7; 8; 9] ]> {[ "/srv/in.mp4" := [7; 8; 9] ]})
           ["/tmp/tmp1.wav"] None).
Proof.
  exact (extract_audio_success sample_env "/srv/in.mp4"
           (World {[ "/srv/in.mp4" := [7; 8; 9] ]} [] None) [7; 8; 9] [7; 8; 9]
           eq_refl eq_refl eq_refl).
Defined.

(** X9: whatever happens, [extract_audio] touches no file but the temporary
    file it allocates, allocates at most that one, and returns no other
    path; a returned path is a file on disk. *)
Theorem extract_audio_frame (E : env) (video_path : string) (w : world) :
  let audio_path := mkstemp E (dom (fs w)) ".wav" in
  let r := (extract_audio E video_path w).1 in
  let w' := (extract_audio E video_path w).2 in
  (∀ p, p ≠ audio_path → fs w' !! p = fs w !! p)
  ∧ (temps w' = temps w ∨ temps w' = (temps w ++ [audio_path])%list)
  ∧ audio_path_var w' = audio_path_var w
  ∧ (∀ q err, r = Ret (Some q, err) → q = audio_path ∧ is_Some (fs w' !! q)).
Proof.
  intros audio_path r w'. subst r w'.
  destruct (extract_audio_cases E video_path w)
    as [(c & msg & ->)|[(msg & ->)|[(msg & partial & -> & _)|(wav & ->)]]]; cbn;
    (split; [|split; [|split]]); try done; eauto.
  - intros p Hp. by rewrite lookup_insert_ne.
  - intros p Hp. by rewrite lookup_insert_ne.
  - intros q err [= <- <-]. by rewrite lookup_insert_eq.
Qed.

(** * Further properties of the /transcribe endpoint *)

Section Requests.
Context (E : env).
#[local] Arguments extract_info : simpl never.

Lemma staged_fs file w :
  fs (staged E file w) = <[ video_tmp E w := file ]> (fs w).
Proof. unfold staged, video_tmp. cbn. by rewrite insert_insert_eq. Qed.

Lemma fresh_names_ne file w :
  fresh_names E file w →
  (video_tmp E w ∉ dom (fs w))
  ∧ audio_tmp E file w ≠ video_tmp E w
  ∧ (audio_tmp E file w ∉ dom (fs w)).
Proof.
  intros [Hv Ha]. rewrite staged_fs, dom_insert_L in Ha.
  split; [done|]. set_solver.
Qed.

(** The staged video goes, and the disk is as before. *)
Lemma unstage file w :
  video_tmp E w ∉ dom (fs w) →
  delete (video_tmp E w) (fs (staged E file w)) = fs w.
Proof.
  intros Hv. rewrite staged_fs, delete_insert_eq.
  apply delete_id. by apply not_elem_of_dom.
Qed.

Lemma unstage_both file wav w :
  fresh_names E file w →
  delete (audio_tmp E file w)
    (delete (video_tmp E w) (<[ audio_tmp E file w := wav ]> (fs (staged E file w))))
  = fs w.
Proof.
  intros (Hv & Hne & Ha)%fresh_names_ne.
  rewrite delete_insert_ne by done. rewrite delete_insert_eq.
  rewrite unstage by done. apply delete_id. by apply not_elem_of_dom.
Qed.


(** The [finally] clause with [audio_path] unbound: the video file is
    removed, nothing else is looked at. *)
Lemma cleanup_unbound video_path w :
  audio_path_var w = None →
  cleanup video_path w = (Ret tt, set_fs (delete video_path) w).
Proof.
  intros Hv. unfold cleanup, os_path_exists, os_remove. run.
  destruct w as [f ts v]. cbn in *. subst v.
  case_bool_decide as Hin; cbn.
  - rewrite bool_decide_eq_true_2 by done. reflexivity.
  - unfold set_fs. cbn. rewrite delete_id; [done|]. by apply not_elem_of_dom.
Qed.

(** An exception that leaves [extract_audio] is caught by the [try]. *)
Lemma transcribe_extraction_raises req w file c msg :
  files req !! "video" = Some file →
  extract_audio E (video_tmp E w) (staged E file w) = (Raise c msg, staged E file w) →
  transcribe E req w
  = (Ret (error_response 500 msg),
     World (delete (video_tmp E w) (fs (staged E file w)))
           (temps w ++ [video_tmp E w]) (audio_path_var w)).
Proof.
  intros Hf Hx. rewrite (transcribe_staged _ _ _ _ Hf).
  unfold call, try_finally, compose.
  assert (try_except (pipeline E (mkstemp E (dom (fs w)) ".mp4"))
            (λ msg, mret (error_response 500 msg)) (staged E file w)
          = (Ret (error_response 500 msg), staged E file w)) as ->.
  { unfold pipeline. run. unfold video_tmp in Hx. by rewrite Hx. }
  rewrite cleanup_unbound by done. reflexivity.
Qed.

(** The response prepared after a successful extraction. *)
Lemma pipeline_transcribed video_path audio_path w w1 :
  extract_audio E video_path w = (Ret (Some audio_path, None), w1) →
  try_except (pipeline E video_path) (λ msg, mret (error_response 500 msg)) w
  = (Ret (transcription_reply E (fs w1 !! audio_path)),
     set_audio_path_var (Some (Some audio_path)) w1).
Proof.
  intros Hx. unfold pipeline, transcribe_audio, whisper_transcribe, transcription_reply.
  run. rewrite Hx. cbn. destruct (whisper_model E) as [model|]; cbn.
  - destruct (model (fs w1 !! audio_path)) as [text|c [|m msg]]; cbn.
    + destruct w1. cbn. by destruct (extract_info (VStr text)).
    + by destruct w1.
    + by destruct w1.
  - by destruct w1.
Qed.

(** The state after a successful extraction at the start of the [try]. *)
Lemma staged_extraction w file track wav :
  fresh_names E file w →
  ffmpeg_version E = Ret tt →
  VideoFileClip E (Some file) = Ret (Clip (Some track)) →
  write_audiofile E track = Ret wav →
  extract_audio E (mkstemp E (dom (fs w)) ".mp4") (staged E file w)
  = (Ret (Some (audio_tmp E file w), None),
     World (<[ audio_tmp E file w := wav ]> (fs (staged E file w)))
           (temps w ++ [video_tmp E w; audio_tmp E file w]) None).
Proof.
  intros (Hv & Hne & Ha)%fresh_names_ne Hff Hclip Hwrite.
  rewrite (extract_audio_written E _ _ track wav Hff); [| |done].
  - fold (audio_tmp E file w). cbn. by rewrite <- app_assoc.
  - fold (audio_tmp E file w). rewrite lookup_insert_ne by done.
    rewrite staged_fs. by rewrite lookup_insert_eq.
Qed.

(** After a successful extraction: the prepared response is sent and both
    temporary files are gone. *)
Lemma transcribe_extracted req w file track wav :
  files req !! "video" = Some file →
  fresh_names E file w →
  ffmpeg_version E = Ret tt →
  VideoFileClip E (Some file) = Ret (Clip (Some track)) →
  write_audiofile E track = Ret wav →
  serve (transcribe E req) w
  = (transcription_reply E (Some wav),
     World (fs w) (temps w ++ [video_tmp E w; audio_tmp E file w]) (audio_path_var w)).
Proof.
  intros Hf Hfresh Hff Hclip Hwrite.
  pose proof (staged_extraction w file track wav Hfresh Hff Hclip Hwrite) as Hx.
  unfold serve. rewrite (transcribe_staged _ _ _ _ Hf).
  unfold call, try_finally, compose.
  rewrite (pipeline_transcribed _ _ _ _ Hx).
  rewrite (cleanup_path _ (audio_tmp E file w)) by done.
  cbn. rewrite lookup_insert_eq. fold (video_tmp E w).
  unfold set_audio_path_var, set_fs. cbn.
  change (<[ video_tmp E w := file ]> (<[ video_tmp E w := [] ]> (fs w)))
    with (fs (staged E file w)).
  by rewrite unstage_both.
Qed.
End Requests.

(** X10: an upload that goes through every stage is answered 200 with the
    text of the model and the fields [extract_info] finds in it; afterwards
    the disk is as it was before the request. *)
Theorem transcribe_success (E : env) (req : request) (w : world)
    (file track wav : blob) (model : option blob → res text) (t : text) :
  files req !! "video" = Some file →
  fresh_names E file w →
  ffmpeg_version E = Ret tt →
  VideoFileClip E (Some file) = Ret (Clip (Some track)) →
  write_audiofile E track = Ret wav →
  whisper_model E = Some model →
  model (Some wav) = Ret t →
  ∃ d, extract_info (VStr t) = Ret d
       ∧ serve (transcribe E req) w
         = (Response 200 (Json (VDict
              {[ "transcription" := VStr t; "extracted_info" := VDict d ]})),
            World (fs w) (temps w ++ [video_tmp E w; audio_tmp E file w])
                  (audio_path_var w)).
Proof.
  intros Hf Hfresh Hff Hclip Hwrite Hmodel Ht.
  destruct (first_match_returns name_patterns t) as [n Hn].
  destruct (first_match_returns location_patterns t) as [l Hl].
  eexists. split; [exact (extract_info_unfold _ _ _ Hn Hl)|].
  rewrite (transcribe_extracted E req w file track wav) by done.
  unfold transcription_reply.
  by rewrite Hmodel, Ht, (extract_info_unfold _ _ _ Hn Hl).
Qed.

Lemma transcribe_success_witness :
  ∃ d, extract_info (VStr (str "Hi, my name is John Smith. I live in Paris now!")) = Ret d
       ∧ serve (transcribe sample_env spoken_upload) busy_world
         = (Response 200 (Json (VDict
              {[ "transcription" := VStr (str "Hi, my name is John Smith. I live in Paris now!");
                 "extracted_info" := VDict d ]})),
            World (fs busy_world)
                  (temps busy_world
                   ++ [video_tmp sample_env busy_world;
                       audio_tmp sample_env [1; 1; 2] busy_world])
                  (audio_path_var busy_world)).
Proof.
  eapply (transcribe_success sample_env spoken_upload busy_world [1; 1; 2] [1; 1; 2]).
  - reflexivity.
  - split; vm_compute; set_solver.
  - reflexivity.
  - reflexivity.
  - reflexivity.
  - reflexivity.
  - reflexivity.
Defined.

(** X11: when the model is not loaded, an upload whose audio is extracted is
    answered 500 with the error "Whisper model not loaded", and both
    temporary files are removed. *)
Theorem transcribe_model_not_loaded (E : env) (req : request) (w : world)
    (file track wav : blob) :
  files req !! "video" = Some file →
  fresh_names E file w →
  ffmpeg_version E = Ret tt →
  VideoFileClip E (Some file) = Ret (Clip (Some track)) →
  write_audiofile E track = Ret wav →
  whisper_model E = None →
  serve (transcribe E req) w
  = (Response 500 (Json (VDict {[ "error" := VStr (str "Whisper model not loaded") ]})),
     World (fs w) (temps w ++ [video_tmp E w; audio_tmp E file w]) (audio_path_var w)).
Proof.
  intros Hf Hfresh Hff Hclip Hwrite Hmodel.
  rewrite (transcribe_extracted E req w file track wav) by done.
  unfold transcription_reply. by rewrite Hmodel.
Qed.

Lemma transcribe_model_not_loaded_witness :
  serve (transcribe unloaded_env spoken_upload) busy_world
  = (Response 500 (Json (VDict {[ "error" := VStr (str "Whisper model not loaded") ]})),
     World (fs busy_world)
           (temps busy_world
            ++ [video_tmp unloaded_env busy_world;
                audio_tmp unloaded_env [1; 1; 2] busy_world])
           (audio_path_var busy_world)).
Proof.
  eapply (transcribe_model_not_loaded unloaded_env spoken_upload busy_world
            [1; 1; 2] [1; 1; 2] [1; 1; 2]).
  - reflexivity.
  - split; vm_compute; set_solver.
  - reflexivity.
  - reflexivity.
  - reflexivity.
  - reflexivity.
Defined.

(** X12: when the model raises, the message of the exception is the error of
    a 500 response, and both temporary files are removed. *)
Theorem transcribe_model_fails (E : env) (req : request) (w : world)
    (file track wav : blob) (model : option blob → res text)
    (c : exn_class) (msg : text) :
  files req !! "video" = Some file →
  fresh_names E file w →
  ffmpeg_version E = Ret tt →
  VideoFileClip E (Some file) = Ret (Clip (Some track)) →
  write_audiofile E track = Ret wav →
  whisper_model E = Some model →
  model (Some wav) = Raise c msg →
  msg ≠ [] →
  serve (transcribe E req) w
  = (Response 500 (Json (VDict {[ "error" := VStr msg ]})),
     World (fs w) (temps w ++ [video_tmp E w; audio_tmp E file w]) (audio_path_var w)).
Proof.
  intros Hf Hfresh Hff Hclip Hwrite Hmodel Hraise Hmsg.
  rewrite (transcribe_extracted E req w file track wav) by done.
  unfold transcription_reply. rewrite Hmodel, Hraise. by destruct msg.
Qed.

Lemma transcribe_model_fails_witness :
  serve (transcribe failing_model_env spoken_upload) busy_world
  = (Response 500 (Json (VDict {[ "error" := VStr (str "CUDA out of memory") ]})),
     World (fs busy_world)
           (temps busy_world
            ++ [video_tmp failing_model_env busy_world;
                audio_tmp failing_model_env [1; 1; 2] busy_world])
           (audio_path_var busy_world)).
Proof.
  eapply (transcribe_model_fails failing_model_env spoken_upload busy_world
            [1; 1; 2] [1; 1; 2] [1; 1; 2] _ Exception).
  - reflexivity.
  - split; vm_compute; set_solver.
  - reflexivity.
  - reflexivity.
  - reflexivity.
  - reflexivity.
  - reflexivity.
  - discriminate.
Defined.

(** X13: without a usable ffmpeg, an upload is answered 500 with Flask's own
    error page: the report "ffmpeg is not installed or not working properly"
    of [extract_audio] is lost to the [TypeError] of the [finally] clause.
    The video file is removed and nothing else was created. *)
Theorem transcribe_no_ffmpeg (E : env) (req : request) (w : world) (file : blob) :
  files req !! "video" = Some file →
  video_tmp E w ∉ dom (fs w) →
  ffmpeg_missing E →
  serve (transcribe E req) w
  = (Response 500 ErrorPage,
     World (fs w) (temps w ++ [video_tmp E w]) (audio_path_var w)).
Proof.
  intros Hf Hv Hm. unfold serve.
  rewrite (transcribe_failed_extraction E req w file _ _ Hf
             (extract_audio_missing E _ _ Hm)).
  cbn. fold (video_tmp E w).
  change (<[ video_tmp E w := file ]> (<[ video_tmp E w := [] ]> (fs w)))
    with (fs (staged E file w)).
  by rewrite unstage.
Qed.

Lemma transcribe_no_ffmpeg_witness :
  serve (transcribe no_ffmpeg_env spoken_upload) busy_world
  = (Response 500 ErrorPage,
     World (fs busy_world) (temps busy_world ++ [video_tmp no_ffmpeg_env busy_world])
           (audio_path_var busy_world)).
Proof.
  eapply (transcribe_no_ffmpeg no_ffmpeg_env spoken_upload busy_world [1; 1; 2]).
  - reflexivity.
  - vm_compute. set_solver.
  - eexists _, _. split; [reflexivity|]. by right.
Defined.

(** X14: an exception of the ffmpeg probe that [check_ffmpeg] does not list
    leaves [extract_audio] inside the [try] of [transcribe]: its message is
    the error of a 500 JSON response, and the video file is removed. *)
Theorem transcribe_probe_exception (E : env) (req : request) (w : world)
    (file : blob) (c : exn_class) (msg : text) :
  files req !! "video" = Some file →
  video_tmp E w ∉ dom (fs w) →
  ffmpeg_version E = Raise c msg →
  c ≠ CalledProcessError → c ≠ FileNotFoundError →
  serve (transcribe E req) w
  = (Response 500 (Json (VDict {[ "error" := VStr msg ]})),
     World (fs w) (temps w ++ [video_tmp E w]) (audio_path_var w)).
Proof.
  intros Hf Hv Hff Hc1 Hc2. unfold serve.
  rewrite (transcribe_extraction_raises E req w file c msg Hf
             (extract_audio_escapes E _ _ c msg Hff Hc1 Hc2)).
  by rewrite unstage.
Qed.

Lemma transcribe_probe_exception_witness :
  serve (transcribe locked_ffmpeg_env spoken_upload) busy_world
  = (Response 500 (Json (VDict
       {[ "error" := VStr (str "[Errno 13] Permission denied: 'ffmpeg'") ]})),
     World (fs busy_world) (temps busy_world ++ [video_tmp locked_ffmpeg_env busy_world])
           (audio_path_var busy_world)).
Proof.
  eapply (transcribe_probe_exception locked_ffmpeg_env spoken_upload busy_world
            [1; 1; 2] PermissionError).
  - reflexivity.
  - vm_compute. set_solver.
  - reflexivity.
  - discriminate.
  - discriminate.
Defined.

Section Outcomes.
Context (E : env).

Lemma transcription_reply_status audio :
  status (transcription_reply E audio) = 200%Z
  ∨ status (transcription_reply E audio) = 500%Z.
Proof.
  unfold transcription_reply. destruct (whisper_model E) as [model|]; [|by right].
  destruct (model audio) as [t|c [|m msg]]; [|by right..].
  destruct (extract_info (VStr t)); [by left|by right].
Qed.

(** Every outcome of a request with a [video] field, by what [extract_audio]
    does: the response and the files left. *)
Lemma transcribe_outcomes req w file :
  files req !! "video" = Some file →
  let video_path := video_tmp E w in
  let audio_path := audio_tmp E file w in
  ∃ r files_left names,
    serve (transcribe E req) w = (r, World files_left names (audio_path_var w))
    ∧ ((status r = 500%Z
        ∧ files_left = delete video_path (fs (staged E file w))
        ∧ names = (temps w ++ [video_path])%list)
       ∨ (∃ partial,
            r = Response 500 ErrorPage
            ∧ files_left
              = delete video_path (<[ audio_path := partial ]> (fs (staged E file w)))
            ∧ names = (temps w ++ [video_path; audio_path])%list
            ∧ (partial = []
               ∨ ∃ track c msg, write_audiofile E track = Raise c msg
                                ∧ partial = write_audiofile_left E track))
       ∨ (∃ wav,
            r = transcription_reply E (Some wav)
            ∧ files_left
              = delete audio_path
                  (delete video_path (<[ audio_path := wav ]> (fs (staged E file w))))
            ∧ names = (temps w ++ [video_path; audio_path])%list)).
Proof.
  intros Hf video_path audio_path.
  destruct (extract_audio_cases E video_path (staged E file w))
    as [(c & msg & Hx)|[(msg & Hx)|[(msg & partial & Hx & Hpartial)|(wav & Hx)]]].
  - eexists _, _, _. split.
    + unfold serve. by rewrite (transcribe_extraction_raises E req w file c msg Hf Hx).
    + by left.
  - eexists _, _, _. split.
    + unfold serve. by rewrite (transcribe_failed_extraction E req w file _ _ Hf Hx).
    + by left.
  - eexists _, _, _. split.
    + unfold serve. by rewrite (transcribe_failed_extraction E req w file _ _ Hf Hx).
    + right. left. exists partial. cbn. rewrite <- app_assoc.
      repeat split; try reflexivity.
      destruct Hpartial as [->|(track & c & Hw & ->)]; [by left|right; eauto].
  - eexists _, _, _. split.
    + unfold serve. rewrite (transcribe_staged _ _ _ _ Hf).
      unfold call, try_finally, compose.
      change (mkstemp E (dom (fs w)) ".mp4") with video_path.
      rewrite (pipeline_transcribed _ _ _ _ _ Hx).
      rewrite (cleanup_path _ audio_path) by done. reflexivity.
    + right. right. exists wav. cbn.
      rewrite lookup_insert_eq, <- app_assoc.
      repeat split; reflexivity.
Qed.
End Outcomes.



(** A write that fails midway: the four bytes it wrote stay on disk. *)
Example partial_wav_left_behind :
  serve (transcribe broken_write_env spoken_upload) busy_world
  = (Response 500 ErrorPage,
     World {[ "/srv/notes.txt" := [104; 105]; "/tmp/tmp2.wav" := [82; 73; 70; 70] ]}
           ["/tmp/tmp1.mp4"; "/tmp/tmp2.wav"] None).
Proof. vm_compute. reflexivity. Qed.

(** X16: the status of [/transcribe] is 200, 400 or 500, and it is 400
    exactly when the request has no [video] field. *)
Theorem transcribe_status (E : env) (req : request) (w : world) :
  let r := (serve (transcribe E req) w).1 in
  (status r = 400%Z ↔ files req !! "video" = None)
  ∧ (status r = 200%Z ∨ status r = 400%Z ∨ status r = 500%Z).
Proof.
  intros r. subst r. destruct (files req !! "video") as [file|] eqn:Hf.
  - destruct (transcribe_outcomes E req w file Hf) as (r & files_left & names & -> & Hcases).
    cbn. assert (status r = 200%Z ∨ status r = 500%Z) as Hs.
    { destruct Hcases as [(-> & _)|[(partial & -> & _)|(wav & -> & _)]]; [by right..|].
      apply transcription_reply_status. }
    split; [|tauto]. split; [|done]. destruct Hs as [-> | ->]; done.
  - assert (serve (transcribe E req) w
            = (error_response 400 (str "No video file provided"), w)) as ->.
    { unfold serve, transcribe. rewrite Hf. run. by destruct w. }
    cbn. tauto.
Qed.

(** * Further properties of the /download_excel endpoint *)

Section Exports.
Context (E : env).
#[local] Arguments export_frame : simpl never.

Lemma download_excel_unfold req w :
  download_excel E req w
  = match get_json E req with
    | Raise _ msg => (Ret (error_response 500 msg), w)
    | Ret data =>
        if truthy data then
          match export_frame data with
          | Raise _ msg => (Ret (error_response 500 msg), w)
          | Ret df =>
              match to_excel E df with
              | Raise _ msg =>
                  (Ret (error_response 500 msg),
                   match to_excel_left E df with
                   | Some partial => set_fs (insert excel_path partial) w
                   | None => w
                   end)
              | Ret workbook =>
                  (Ret (Response 200 (Attachment excel_path workbook)),
                   set_fs (insert excel_path workbook) w)
              end
          end
        else (Ret (error_response 400 (str "No JSON data provided")), w)
    end.
Proof.
  unfold download_excel, df_to_excel, send_file, write_file. run.
  destruct (get_json E req) as [data|c msg]; cbn; [|by destruct w].
  destruct (truthy data); cbn; [|by destruct w].
  destruct (export_frame data) as [df|c msg]; cbn; [|by destruct w].
  destruct (to_excel E df) as [workbook|c msg]; cbn.
  - rewrite lookup_insert_eq. by destruct w.
  - destruct (to_excel_left E df); by destruct w.
Qed.

Lemma export_frame_not_object data :
  (∀ d, data ≠ VDict d) → export_frame data = Raise AttributeError (no_get data).
Proof. intros Hd. destruct data; try reflexivity. by destruct (Hd d). Qed.

Lemma export_frame_info_not_object (d : gmap string value) v :
  d !! "extracted_info" = Some v → (∀ info, v ≠ VDict info) →
  export_frame (VDict d) = Raise AttributeError (no_get v).
Proof.
  intros Hv Hinfo. unfold export_frame. rewrite !get_default, Hv. cbn.
  destruct v; try reflexivity. by destruct (Hinfo d0).
Qed.

(** Every outcome of an export: no data; an error, with the disk untouched
    or with what a failed writer left under the fixed path; a written
    workbook. *)
Lemma download_excel_outcomes req w :
  (no_data E req
   ∧ download_excel E req w
     = (Ret (error_response 400 (str "No JSON data provided")), w))
  ∨ (¬ no_data E req
     ∧ ∃ msg w', download_excel E req w = (Ret (error_response 500 msg), w')
                 ∧ (w' = w ∨ ∃ partial, w' = set_fs (insert excel_path partial) w))
  ∨ (¬ no_data E req
     ∧ ∃ workbook, download_excel E req w
                   = (Ret (Response 200 (Attachment excel_path workbook)),
                      set_fs (insert excel_path workbook) w)).
Proof.
  rewrite download_excel_unfold. unfold no_data.
  destruct (get_json E req) as [data|c msg].
  - destruct (truthy data) eqn:Ht.
    + assert (¬ ∃ data0, Ret data = Ret data0 ∧ truthy data0 = false) as Hn.
      { intros (data0 & [= <-] & Ht'). congruence. }
      destruct (export_frame data) as [df|c msg]; [|right; left; eauto 6].
      destruct (to_excel E df) as [workbook|c msg]; [by right; right; eauto|].
      right. left. split; [done|].
      destruct (to_excel_left E df) as [partial|]; eauto 6.
    + left. eauto.
  - right. left. split; [|eauto 6]. by intros (data & [=] & _).
Qed.
End Exports.

(** C10 as stated fails: the key [extracted_info], present with an explicit
    null, is not written through: nothing is written, and the answer is
    500. *)
Lemma null_info_not_written :
  ({[ "extracted_info" := VNone ]} : gmap string value) !! "extracted_info" = Some VNone
  ∧ serve (download_excel sample_env
             (Request ∅ true (Document (VDict {[ "extracted_info" := VNone ]}))))
      empty_world
    = (Response 500 (Json (VDict
         {[ "error" := VStr (str "'NoneType' object has no attribute 'get'") ]})),
       empty_world).
Proof. split; vm_compute; reflexivity. Qed.

(** C10, amended: for a non-empty JSON object given to the export endpoint
    whose [extracted_info] is absent or an object, the row handed to the
    spreadsheet writer has "N/A" in the Location and Name cells only when
    [extracted_info] or the [location] / [name] key is absent; a [location],
    [name] or [transcription] key that is present, also with an explicit
    null, is written through; an absent [transcription] is written as the
    empty string; and the workbook made from that row is what the endpoint
    stores and sends.  When [extracted_info] is present and no object, an
    explicit null included, nothing is written and the answer is 500. *)
Theorem export_cells (E : env) (req : request) (w : world) (d : gmap string value) :
  get_json E req = Ret (VDict d) →
  d ≠ ∅ →
  (∀ v, d !! "extracted_info" = Some v → (∀ info, v ≠ VDict info) →
     serve (download_excel E req) w
     = (Response 500 (Json (VDict {[ "error" := VStr (no_get v) ]})), w))
  ∧ ((∀ v, d !! "extracted_info" = Some v → ∃ info, v = VDict info) →
     ∃ location name transcription,
       (∀ key cell, (key, cell) ∈ [("location", location); ("name", name)] →
          (d !! "extracted_info" = None → cell = VStr (str "N/A"))
          ∧ (∀ info, d !! "extracted_info" = Some (VDict info) →
               info !! key = None → cell = VStr (str "N/A"))
          ∧ (∀ info v, d !! "extracted_info" = Some (VDict info) →
               info !! key = Some v → cell = v))
       ∧ (d !! "transcription" = None → transcription = VStr [])
       ∧ (∀ v, d !! "transcription" = Some v → transcription = v)
       ∧ (∀ workbook,
            to_excel E
              [[("Location", location); ("Name", name); ("Transcription", transcription)]]
            = Ret workbook →
            serve (download_excel E req) w
            = (Response 200 (Attachment excel_path workbook),
               set_fs (insert excel_path workbook) w))
       ∧ (∀ c msg,
            to_excel E
              [[("Location", location); ("Name", name); ("Transcription", transcription)]]
            = Raise c msg →
            (serve (download_excel E req) w).1
            = Response 500 (Json (VDict {[ "error" := VStr msg ]})))).
Proof.
  intros Hg Hd.
  assert (truthy (VDict d) = true) as Ht.
  { cbn. by rewrite bool_decide_eq_false_2. }
  split.
  - intros v Hv Hinfo. unfold serve.
    rewrite download_excel_unfold, Hg, Ht.
    by rewrite (export_frame_info_not_object d v).
  - intros Hinfo.
    destruct (export_frame_cells d Hinfo)
      as (location & name & transcription & Hf & Hcells & Habsent & Hpresent).
    exists location, name, transcription.
    split; [exact Hcells|]. split; [exact Habsent|]. split; [exact Hpresent|].
    split.
    + intros workbook Hx. unfold serve.
      by rewrite download_excel_unfold, Hg, Ht, Hf, Hx.
    + intros c msg Hx. unfold serve.
      rewrite download_excel_unfold, Hg, Ht, Hf, Hx.
      by destruct (to_excel_left E _).
Qed.

(** A body with an explicit null name and nothing else, as the listing
    writer stores its row: "N/A", an empty line for the null, an empty line
    for the absent transcription. *)
Lemma export_cells_witness :
  serve (download_excel listing_env
           (Request ∅ true (Document (VDict null_name_body)))) empty_world
  = (Response 200 (Attachment excel_path [78; 47; 65; 10; 10; 10]),
     set_fs (insert excel_path [78; 47; 65; 10; 10; 10]) empty_world).
Proof.
  destruct (export_cells listing_env
              (Request ∅ true (Document (VDict null_name_body))) empty_world
              null_name_body eq_refl)
    as [_ Hrow].
  - intros Hd. apply (f_equal (λ m : gmap string value, m !! "extracted_info")) in Hd.
    vm_compute in Hd. discriminate.
  - destruct Hrow as (location & name & transcription & Hcells & Ht & _ & Hok & _).
    + intros v Hv. vm_compute in Hv. injection Hv as <-. eexists. reflexivity.
    + assert (location = VStr (str "N/A")) as ->.
      { destruct (Hcells "location" location) as (_ & Habsent & _); [repeat constructor|].
        apply (Habsent {[ "name" := VNone ]}); reflexivity. }
      assert (name = VNone) as ->.
      { destruct (Hcells "name" name) as (_ & _ & Hpresent); [repeat constructor|].
        apply (Hpresent {[ "name" := VNone ]}); reflexivity. }
      assert (transcription = VStr []) as -> by (apply Ht; reflexivity).
      apply Hok. reflexivity.
Defined.

(** X17: a JSON body that is truthy but no object (a non-empty array or
    string, a number, [true]) is answered 500 with the message of the
    [AttributeError] of its missing [get] method; nothing is written. *)
Theorem download_excel_not_object (E : env) (req : request) (w : world) (data : value) :
  get_json E req = Ret data →
  truthy data = true →
  (∀ d, data ≠ VDict d) →
  serve (download_excel E req) w
  = (Response 500 (Json (VDict {[ "error" := VStr (no_get data) ]})), w).
Proof.
  intros Hg Ht Hd. unfold serve. rewrite download_excel_unfold, Hg, Ht.
  by rewrite export_frame_not_object.
Qed.

Lemma download_excel_not_object_witness :
  serve (download_excel sample_env (json_post (VList [VInt 1]))) busy_world
  = (Response 500 (Json (VDict
       {[ "error" := VStr (str "'list' object has no attribute 'get'") ]})), busy_world).
Proof.
  apply (download_excel_not_object sample_env (json_post (VList [VInt 1]))
           busy_world (VList [VInt 1])); [reflexivity|reflexivity|discriminate].
Defined.

(** X18: an [extracted_info] that is present and no object, an explicit null
    included, is answered 500 in the same way; nothing is written. *)
Theorem download_excel_info_not_object (E : env) (req : request) (w : world)
    (d : gmap string value) (v : value) :
  get_json E req = Ret (VDict d) →
  d !! "extracted_info" = Some v →
  (∀ info, v ≠ VDict info) →
  serve (download_excel E req) w
  = (Response 500 (Json (VDict {[ "error" := VStr (no_get v) ]})), w).
Proof.
  intros Hg Hv Hinfo. unfold serve. rewrite download_excel_unfold, Hg.
  assert (truthy (VDict d) = true) as ->.
  { cbn. rewrite bool_decide_eq_false_2; [done|]. intros ->. by rewrite lookup_empty in Hv. }
  by rewrite (export_frame_info_not_object d v).
Qed.

Lemma download_excel_info_not_object_witness :
  serve (download_excel sample_env
           (json_post (VDict {[ "extracted_info" := VNone ]}))) busy_world
  = (Response 500 (Json (VDict
       {[ "error" := VStr (str "'NoneType' object has no attribute 'get'") ]})),
     busy_world).
Proof.
  apply (download_excel_info_not_object sample_env
           (json_post (VDict {[ "extracted_info" := VNone ]})) busy_world
           {[ "extracted_info" := VNone ]} VNone); [reflexivity|reflexivity|discriminate].
Defined.


(** A writer that fails after it has opened the file: the answer is 500 and
    the old workbook is gone. *)
Example failed_export_truncates :
  serve (download_excel broken_excel_env (json_post (VDict full_body)))
    (World {[ excel_path := [80; 75; 3; 4] ]} [] None)
  = (Response 500 (Json (VDict
       {[ "error" := VStr (str "[Errno 28] No space left on device") ]})),
     World {[ excel_path := [80; 75] ]} [] None).
Proof. vm_compute. reflexivity. Qed.

(** X20: the status of [/download_excel] is 200, 400 or 500, and it is 400
    exactly when [get_json] returns a falsy value: [None], [{}], [[]], the
    empty string, [0] or [false]. *)
Theorem download_excel_status (E : env) (req : request) (w : world) :
  let r := (serve (download_excel E req) w).1 in
  (status r = 400%Z ↔ no_data E req)
  ∧ (status r = 200%Z ∨ status r = 400%Z ∨ status r = 500%Z).
Proof.
  intros r. subst r. unfold serve.
  destruct (download_excel_outcomes E req w)
    as [(Hn & ->)|[(Hn & msg & w' & -> & _)|(Hn & workbook & ->)]]; cbn.
  - tauto.
  - split; [|tauto]. split; [done|tauto].
  - split; [|tauto]. split; [done|tauto].
Qed.

(** X21: the workbook has one fixed path: of two exports in a row that
    succeed, the second overwrites the first, and the disk is as if the
    first had not happened. *)
Theorem download_excel_overwrites (E : env) (req1 req2 : request) (w : world)
    (data1 data2 : value) (df1 df2 : dataframe) (workbook1 workbook2 : blob) :
  get_json E req1 = Ret data1 → truthy data1 = true →
  export_frame data1 = Ret df1 → to_excel E df1 = Ret workbook1 →
  get_json E req2 = Ret data2 → truthy data2 = true →
  export_frame data2 = Ret df2 → to_excel E df2 = Ret workbook2 →
  serve (download_excel E req2) (serve (download_excel E req1) w).2
  = (Response 200 (Attachment excel_path workbook2),
     set_fs (insert excel_path workbook2) w).
Proof.
  intros Hg1 Ht1 Hf1 Hx1 Hg2 Ht2 Hf2 Hx2. unfold serve.
  rewrite !download_excel_unfold, Hg1, Ht1, Hf1, Hx1, Hg2, Ht2, Hf2, Hx2. cbn.
  unfold set_fs. cbn. by rewrite insert_insert_eq.
Qed.

Lemma download_excel_overwrites_witness :
  serve (download_excel listing_env (json_post (VDict partial_body)))
    (serve (download_excel listing_env (json_post (VDict full_body))) busy_world).2
  = (Response 200 (Attachment excel_path [79; 115; 108; 111; 10; 65; 110; 110; 10; 10]),
     set_fs (insert excel_path [79; 115; 108; 111; 10; 65; 110; 110; 10; 10]) busy_world).
Proof.
  eapply (download_excel_overwrites listing_env (json_post (VDict full_body))
            (json_post (VDict partial_body)) busy_world);
    [reflexivity | vm_compute; reflexivity | vm_compute; reflexivity | reflexivity
    |reflexivity | vm_compute; reflexivity | vm_compute; reflexivity | reflexivity].
Defined.

(** * Properties of /health and of the loading of the model *)

(** X22: [/health] always answers 200 "healthy"; when it reports
    [whisper_ready] false, every call of [transcribe_audio] fails with
    "Whisper model not loaded", and when it reports true a model is there. *)
Theorem health_reports_model (E : env) (w : world) :
  ∃ ready,
    serve (health_check E) w
    = (Response 200 (Json (VDict
         {[ "status" := VStr (str "healthy"); "whisper_ready" := VBool ready ]})), w)
    ∧ (ready = false →
       ∀ audio_path w0,
         transcribe_audio E audio_path w0
         = (Ret (None, Some (str "Whisper model not loaded")), w0))
    ∧ (ready = true → ∃ model, whisper_model E = Some model).
Proof.
  exists (bool_decide (is_Some (whisper_model E))). split; [|split].
  - unfold serve, health_check. run. by destruct w.
  - intros Hr%bool_decide_eq_false audio_path w0.
    unfold transcribe_audio. destruct (whisper_model E); [by destruct Hr|].
    run. by destruct w0.
  - intros [model Hm]%bool_decide_eq_true. eauto.
Qed.

(** X23: after [load_model] the model is the one the loader gave for
    "medium" on "cuda" if available and on "cpu" otherwise, [/health] reports
    [whisper_ready] true, [transcribe_audio] returns what that model returns,
    and the other collaborators are as before. *)
Theorem load_model_ready (cuda : bool)
    (whisper_load : string → string → res (option blob → res text)) (E E' : env) :
  load_model cuda whisper_load E = Ret E' →
  ∃ model,
    whisper_load "medium" (if cuda then "cuda" else "cpu") = Ret model
    ∧ whisper_model E' = Some model
    ∧ (∀ w, serve (health_check E') w
            = (Response 200 (Json (VDict
                 {[ "status" := VStr (str "healthy");
                    "whisper_ready" := VBool true ]})), w))
    ∧ (∀ audio_path w t,
         model (audio_path ≫= (fs w !!.)) = Ret t →
         transcribe_audio E' audio_path w = (Ret (Some t, None), w))
    ∧ (∀ video_path w, extract_audio E' video_path w = extract_audio E video_path w).
Proof.
  unfold load_model.
  destruct (whisper_load "medium" (if cuda then "cuda" else "cpu")) as [model|c msg] eqn:Hl;
    [|done].
  cbn. intros [= <-]. exists model. cbn. split; [done|]. split; [done|].
  split; [|split].
  - intros w. unfold serve, health_check. run. by destruct w.
  - intros audio_path w t Ht. unfold transcribe_audio, whisper_transcribe.
    destruct w, audio_path; run; cbn in Ht; by rewrite Ht.
  - reflexivity.
Qed.

Lemma load_model_ready_witness :
  ∃ model,
    sample_loader "medium" "cpu" = Ret model
    ∧ whisper_model
        (Env (ffmpeg_version unloaded_env) (mkstemp unloaded_env)
           (VideoFileClip unloaded_env) (write_audiofile unloaded_env)
           (Some (fun _ => Ret (str "medium on cpu")))
           (to_excel unloaded_env) (strict_json unloaded_env)
           (write_audiofile_left unloaded_env) (to_excel_left unloaded_env)) = Some model.
Proof.
  destruct (load_model_ready false sample_loader unloaded_env
              (Env (ffmpeg_version unloaded_env) (mkstemp unloaded_env)
                 (VideoFileClip unloaded_env) (write_audiofile unloaded_env)
                 (Some (fun _ => Ret (str "medium on cpu")))
                 (to_excel unloaded_env) (strict_json unloaded_env)
                 (write_audiofile_left unloaded_env) (to_excel_left unloaded_env)) eq_refl)
    as (model & Hload & Hmodel & _).
  exists model. split; [exact Hload|exact Hmodel].
Defined.
